(** * ToDoList: the state, persistence and projection logic of js/script.js

    The script keeps one mutable [state] object (todos, history,
    currentFilter), mirrors it into [localStorage] under two keys and
    projects it into the DOM.  The development below embeds that logic as
    pure functions over an explicit [World] (the state object together with
    the storage area, the error banner and the rendered list) and proves the
    properties the specification states about it.

    Conventions of the embedding:
    - a JavaScript string is a [string] whose characters are the code units
      below 256;
    - a number that is used as a task id is an integer, a [Z];
    - what a handler reads from its environment (the form fields, the clock,
      the formatted local time, the clicked element) is an argument;
    - an exception is a [Throw] of the [completion] type;
    - [JSON.stringify] and [JSON.parse] belong to the platform: they are
      section variables, constrained only by the round-trip contract the
      platform documents;
    - a handler is given twice: as it runs when every write to the storage
      area succeeds, and, with the suffix [Quota], over writes that can
      throw, where it ends as [Completed] or as [Aborted]. *)

From Stdlib Require Import ZArith Ascii String Sorted.
From Stdlib Require DecimalString DecimalZ.
From stdpp Require Import gmap strings list.

Set Warnings "-register-all".

Local Open Scope string_scope.
Local Open Scope list_scope.
Local Open Scope nat_scope.
Local Open Scope stdpp_scope.

(** ** Strings *)

(** The double quote, as template literals splice it into messages. *)
Definition dquote : string := String (ascii_of_nat 34) EmptyString.

(** [s === ''] *)
Definition isEmpty (s : string) : bool :=
  match s with
  | EmptyString => true
  | String _ _ => false
  end.

(** WhiteSpace and LineTerminator code units below 256: TAB, LF, VT, FF, CR,
    SP and NBSP. *)
Definition isWhiteSpace (c : ascii) : bool :=
  let n := nat_of_ascii c in
  (n =? 9)%nat || (n =? 10)%nat || (n =? 11)%nat || (n =? 12)%nat
  || (n =? 13)%nat || (n =? 32)%nat || (n =? 160)%nat.

Fixpoint trimStart (s : string) : string :=
  match s with
  | EmptyString => EmptyString
  | String c rest => if isWhiteSpace c then trimStart rest else s
  end.

Fixpoint trimEnd (s : string) : string :=
  match s with
  | EmptyString => EmptyString
  | String c rest =>
      match trimEnd rest with
      | EmptyString => if isWhiteSpace c then EmptyString else String c EmptyString
      | kept => String c kept
      end
  end.

(** [String.prototype.trim] *)
Definition trim (s : string) : string := trimEnd (trimStart s).

(** [a || b] on strings: the empty string is falsy. *)
Definition orElse (a b : string) : string := if isEmpty a then b else a.

(** ** Data model *)

Record Task := mkTask {
  id : Z;
  text : string;
  description : string;
  date : string;
  completed : bool
}.

Record HistoryEntry := mkEntry {
  action : string;
  timestamp : string
}.

(** The [state] object of the script. *)
Record State := mkState {
  todos : list Task;
  history : list HistoryEntry;
  currentFilter : string
}.

(** Everything a handler can read or write: the state object, the storage
    area, the text of the [.error-message] element and the tasks shown in
    the [.todo-list] element (the empty list stands for the placeholder
    message). *)
Record World := mkWorld {
  state : State;
  localStorage : gmap string string;
  errorMessage : string;
  todoList : list Task
}.

Definition initialState : State := mkState [] [] "all".

Definition withState (f : State → State) (w : World) : World :=
  mkWorld (f (state w)) (localStorage w) (errorMessage w) (todoList w).

Definition setTodos (l : list Task) (st : State) : State :=
  mkState l (history st) (currentFilter st).

Definition setHistory (h : list HistoryEntry) (st : State) : State :=
  mkState (todos st) h (currentFilter st).

Definition setCurrentFilter (f : string) (st : State) : State :=
  mkState (todos st) (history st) f.

(** ** JavaScript values that reach the storage area *)

Inductive value : Type :=
| VNull
| VBool (b : bool)
| VNum (n : Z)
| VStr (s : string)
| VArr (elems : list value)
| VObj (members : list (string * value)).

(** The object literal of [handleAddTodo], properties in creation order. *)
Definition taskValue (t : Task) : value :=
  VObj [("id", VNum (id t)); ("text", VStr (text t));
        ("description", VStr (description t)); ("date", VStr (date t));
        ("completed", VBool (completed t))].

(** The object literal [{ action, timestamp }] of [logHistory]. *)
Definition entryValue (e : HistoryEntry) : value :=
  VObj [("action", VStr (action e)); ("timestamp", VStr (timestamp e))].

Definition todosValue (l : list Task) : value := VArr (map taskValue l).
Definition historyValue (h : list HistoryEntry) : value := VArr (map entryValue h).

(** Property lookup in an object. *)
Definition getProp (k : string) (members : list (string * value)) : option value :=
  match List.find (fun kv => String.eqb (fst kv) k) members with
  | Some kv => Some (snd kv)
  | None => None
  end.

(** Reading a value back as a task: an object with exactly the five
    properties of a task, each of its type. *)
Definition asTask (v : value) : option Task :=
  match v with
  | VObj m =>
      if (length m =? 5)%nat then
        match getProp "id" m, getProp "text" m, getProp "description" m,
              getProp "date" m, getProp "completed" m with
        | Some (VNum i), Some (VStr t), Some (VStr d), Some (VStr dt), Some (VBool c) =>
            Some (mkTask i t d dt c)
        | _, _, _, _, _ => None
        end
      else None
  | _ => None
  end.

Definition asEntry (v : value) : option HistoryEntry :=
  match v with
  | VObj m =>
      if (length m =? 2)%nat then
        match getProp "action" m, getProp "timestamp" m with
        | Some (VStr a), Some (VStr ts) => Some (mkEntry a ts)
        | _, _ => None
        end
      else None
  | _ => None
  end.

Fixpoint asAll {A : Type} (f : value → option A) (l : list value) : option (list A) :=
  match l with
  | [] => Some []
  | v :: rest =>
      match f v, asAll f rest with
      | Some a, Some r => Some (a :: r)
      | _, _ => None
      end
  end.

Definition asTodos (v : value) : option (list Task) :=
  match v with
  | VArr l => asAll asTask l
  | _ => None
  end.

Definition asHistory (v : value) : option (list HistoryEntry) :=
  match v with
  | VArr l => asAll asEntry l
  | _ => None
  end.

(** ** Exceptions *)

Inductive exn := SyntaxError.

Inductive completion (A : Type) : Type :=
| Normal (a : A)
| Throw (e : exn).

Arguments Normal {A} a.
Arguments Throw {A} e.

(** [try { body } catch (e) { handler }] *)
Definition tryCatch {A : Type} (body : completion A) (handler : exn → completion A)
  : completion A :=
  match body with
  | Normal a => Normal a
  | Throw e => handler e
  end.

(** ** Rendering and the activity log *)

(** The callback of [state.todos.filter] in [render]. *)
Definition passesFilter (currentFilter : string) (todo : Task) : bool :=
  if String.eqb currentFilter "completed" then completed todo
  else if String.eqb currentFilter "incomplete" then negb (completed todo)
  else true.

Definition filteredTodos (st : State) : list Task :=
  List.filter (passesFilter (currentFilter st)) (todos st).

(** [render]: the list element is cleared and refilled from the filtered
    tasks. *)
Definition render (w : World) : World :=
  mkWorld (state w) (localStorage w) (errorMessage w) (filteredTodos (state w)).

Definition showError (message : string) (w : World) : World :=
  mkWorld (state w) (localStorage w) message (todoList w).

Definition hideError (w : World) : World :=
  mkWorld (state w) (localStorage w) EmptyString (todoList w).

(** [logHistory]: [unshift], then one [pop] when more than 30 entries are
    held.  [timestamp] is what [toLocaleString] returned. *)
Definition logHistory (action timestamp : string) (st : State) : State :=
  let unshifted := mkEntry action timestamp :: history st in
  setHistory (if (30 <? length unshifted)%nat then removelast unshifted else unshifted) st.

(** [todoToUpdate.completed = !todoToUpdate.completed] on the object that
    [find] returned: the first task that satisfies [p], updated in place. *)
Fixpoint updateFirst (p : Task → bool) (f : Task → Task) (l : list Task) : list Task :=
  match l with
  | [] => []
  | t :: rest => if p t then f t :: rest else t :: updateFirst p f rest
  end.

Definition setCompleted (c : bool) (t : Task) : Task :=
  mkTask (id t) (text t) (description t) (date t) c.

(** ** What a handler reads from its environment *)

(** The values of the three form fields at submission. *)
Record Submission := mkSubmission {
  todoInput : string;
  todoDateInput : string;
  todoDescriptionInput : string
}.

(** [Date.now()] and [new Date().toLocaleString('en-GB', ...)]. *)
Record Clock := mkClock {
  now : Z;
  localeString : string
}.

(** A click inside the list: the [data-id] of [target.closest('.todo')], read
    as a number, when there is such an element, and whether the target lies
    in a [.trash-btn], a [.complete-btn], a [.todo-item].  [createTodoElement]
    writes the id of a task into [data-id], so the number is an integer. *)
Record ClickEvent := mkClick {
  closestTodo : option Z;
  inTrashBtn : bool;
  inCompleteBtn : bool;
  inTodoItem : bool
}.

(** ** A reference codec

    A printer of compact JSON text and a recursive-descent reader of it, over
    the values above.  The theorems about persistence hold for every codec
    that meets the round-trip contract; this one shows that the contract can
    be met, and lets the program run on concrete inputs. *)

Definition quoteChar : ascii := ascii_of_nat 34.
Definition backslash : ascii := ascii_of_nat 92.

Definition hexDigit (n : nat) : ascii :=
  match n with
  | 0 => "0" | 1 => "1" | 2 => "2" | 3 => "3" | 4 => "4" | 5 => "5" | 6 => "6"
  | 7 => "7" | 8 => "8" | 9 => "9" | 10 => "a" | 11 => "b" | 12 => "c"
  | 13 => "d" | 14 => "e" | _ => "f"
  end%char.

Definition hexValue (c : ascii) : option nat :=
  let n := nat_of_ascii c in
  if (48 <=? n)%nat && (n <=? 57)%nat then Some (n - 48)
  else if (97 <=? n)%nat && (n <=? 102)%nat then Some (n - 87)
  else if (65 <=? n)%nat && (n <=? 70)%nat then Some (n - 55)
  else None.

(** One character of a string literal: the two-character escapes of the
    quote, the backslash and of BS, TAB, LF, FF, CR; a [\u00XX] escape for
    the other control characters; every other character as it is. *)
Definition printChar (c : ascii) : string :=
  let n := nat_of_ascii c in
  if Ascii.eqb c quoteChar then String backslash (String quoteChar EmptyString)
  else if Ascii.eqb c backslash then String backslash (String backslash EmptyString)
  else if (n =? 8)%nat then String backslash "b"
  else if (n =? 9)%nat then String backslash "t"
  else if (n =? 10)%nat then String backslash "n"
  else if (n =? 12)%nat then String backslash "f"
  else if (n =? 13)%nat then String backslash "r"
  else if (n <? 32)%nat then
    String backslash
      (String "u" (String "0" (String "0"
         (String (hexDigit (n / 16)) (String (hexDigit (n mod 16)) EmptyString)))))
  else String c EmptyString.

Fixpoint printChars (s : string) : string :=
  match s with
  | EmptyString => EmptyString
  | String c rest => printChar c +:+ printChars rest
  end.

Definition printString (s : string) : string :=
  String quoteChar (printChars s +:+ String quoteChar EmptyString).

Definition printNumber (n : Z) : string :=
  DecimalString.NilZero.string_of_int (Z.to_int n).

(** The items of an array or the properties of an object, separated by
    commas, up to and with the closing bracket. *)
Definition printItems {A : Type} (pr : A → string) (close : string)
  : list A → string :=
  fix items (l : list A) : string :=
    match l with
    | [] => close
    | x :: rest =>
        pr x +:+ match rest with [] => EmptyString | _ :: _ => "," end +:+ items rest
    end.

Fixpoint printValue (v : value) : string :=
  match v with
  | VNull => "null"
  | VBool true => "true"
  | VBool false => "false"
  | VNum n => printNumber n
  | VStr s => printString s
  | VArr elems => "[" +:+ printItems printValue "]" elems
  | VObj members =>
      "{" +:+
      printItems (fun '(k, v) => printString k +:+ ":" +:+ printValue v) "}" members
  end.

(** The characters up to the closing quote of a string literal, unescaped,
    and the text after that quote. *)
Fixpoint parseChars (s : string) : option (string * string) :=
  match s with
  | EmptyString => None
  | String c rest =>
      if Ascii.eqb c quoteChar then Some (EmptyString, rest)
      else if Ascii.eqb c backslash then
        match rest with
        | EmptyString => None
        | String e rest' =>
            let unescaped (c' : ascii) :=
              match parseChars rest' with
              | Some (body, after) => Some (String c' body, after)
              | None => None
              end in
            if Ascii.eqb e quoteChar || Ascii.eqb e backslash || Ascii.eqb e "/"
            then unescaped e
            else if Ascii.eqb e "b" then unescaped (ascii_of_nat 8)
            else if Ascii.eqb e "t" then unescaped (ascii_of_nat 9)
            else if Ascii.eqb e "n" then unescaped (ascii_of_nat 10)
            else if Ascii.eqb e "f" then unescaped (ascii_of_nat 12)
            else if Ascii.eqb e "r" then unescaped (ascii_of_nat 13)
            else if Ascii.eqb e "u" then
              match rest' with
              | String h1 (String h2 (String h3 (String h4 rest''))) =>
                  match hexValue h1, hexValue h2, hexValue h3, hexValue h4 with
                  | Some 0, Some 0, Some hi, Some lo =>
                      match parseChars rest'' with
                      | Some (body, after) =>
                          Some (String (ascii_of_nat (16 * hi + lo)) body, after)
                      | None => None
                      end
                  | _, _, _, _ => None
                  end
              | _ => None
              end
            else None
        end
      else if (nat_of_ascii c <? 32)%nat then None
      else
        match parseChars rest with
        | Some (body, after) => Some (String c body, after)
        | None => None
        end
  end.

Definition isNumberChar (c : ascii) : bool :=
  let n := nat_of_ascii c in
  Ascii.eqb c "-" || ((48 <=? n)%nat && (n <=? 57)%nat).

(** The longest prefix made of a sign and digits, and the text after it. *)
Fixpoint spanNumber (s : string) : string * string :=
  match s with
  | EmptyString => (EmptyString, EmptyString)
  | String c rest =>
      if isNumberChar c then
        let (token, after) := spanNumber rest in (String c token, after)
      else (EmptyString, s)
  end.

Fixpoint parseValue (fuel : nat) (s : string) : option (value * string) :=
  match fuel with
  | O => None
  | S fuel =>
      match s with
      | EmptyString => None
      | String c rest =>
          if Ascii.eqb c quoteChar then
            match parseChars rest with
            | Some (body, after) => Some (VStr body, after)
            | None => None
            end
          else if Ascii.eqb c "[" then
            match rest with
            | EmptyString => None
            | String c' after =>
                if Ascii.eqb c' "]" then Some (VArr [], after)
                else
                  match parseItems fuel rest with
                  | Some (l, after') => Some (VArr l, after')
                  | None => None
                  end
            end
          else if Ascii.eqb c "{" then
            match rest with
            | EmptyString => None
            | String c' after =>
                if Ascii.eqb c' "}" then Some (VObj [], after)
                else
                  match parseProps fuel rest with
                  | Some (l, after') => Some (VObj l, after')
                  | None => None
                  end
            end
          else if isNumberChar c then
            let (token, after) := spanNumber s in
            match DecimalString.NilZero.int_of_string token with
            | Some d => Some (VNum (Z.of_int d), after)
            | None => None
            end
          else
            match s with
            | String "n" (String "u" (String "l" (String "l" after))) =>
                Some (VNull, after)
            | String "t" (String "r" (String "u" (String "e" after))) =>
                Some (VBool true, after)
            | String "f" (String "a" (String "l" (String "s" (String "e" after)))) =>
                Some (VBool false, after)
            | _ => None
            end
      end
  end
with parseItems (fuel : nat) (s : string) : option (list value * string) :=
  match fuel with
  | O => None
  | S fuel =>
      match parseValue fuel s with
      | Some (v, String c rest) =>
          if Ascii.eqb c "," then
            match parseItems fuel rest with
            | Some (l, after) => Some (v :: l, after)
            | None => None
            end
          else if Ascii.eqb c "]" then Some ([v], rest)
          else None
      | _ => None
      end
  end
with parseProps (fuel : nat) (s : string) : option (list (string * value) * string) :=
  match fuel with
  | O => None
  | S fuel =>
      match s with
      | String q rest =>
          if Ascii.eqb q quoteChar then
            match parseChars rest with
            | Some (k, String colon rest') =>
                if Ascii.eqb colon ":" then
                  match parseValue fuel rest' with
                  | Some (v, String c rest'') =>
                      if Ascii.eqb c "," then
                        match parseProps fuel rest'' with
                        | Some (l, after) => Some ((k, v) :: l, after)
                        | None => None
                        end
                      else if Ascii.eqb c "}" then Some ([(k, v)], rest'')
                      else None
                  | _ => None
                  end
                else None
            | _ => None
            end
          else None
      | EmptyString => None
      end
  end.

Definition refStringify (v : value) : string := printValue v.

(** The whole text must be one value; anything else is a syntax error. *)
Definition refParse (s : string) : completion value :=
  match parseValue (String.length s) s with
  | Some (v, EmptyString) => Normal v
  | _ => Throw SyntaxError
  end.

(** ** The contract of the platform's codec

    The values the program hands to [JSON.stringify] are arrays of task
    objects and arrays of history entries.  On those, parsing the text that
    [stringify] produced gives the value back; the empty text is no JSON. *)

Definition wellFormed (v : value) : Prop :=
  (∃ l, v = todosValue l) ∨ (∃ h, v = historyValue h).

Definition codecContract (stringify : value → string)
    (parse : string → completion value) : Prop :=
  (∀ v, wellFormed v → parse (stringify v) = Normal v)
  ∧ parse EmptyString = Throw SyntaxError.

(** A title is blank when it holds white space only. *)
Definition blank (s : string) : bool :=
  forallb isWhiteSpace (list_ascii_of_string s).

Section Program.

(** The platform's codec.  [JSON.parse] throws on a text that is no JSON. *)
Variable JSON_stringify : value → string.
Variable JSON_parse : string → completion value.

(** ** Persistence *)

(** [getItem] returns [null] for a missing key; [null] and the empty text
    are falsy.  The [catch] block logs to the console and returns the empty
    array; the console is not part of the world. *)
Definition checkStorage (key : string) (storage : gmap string string)
  : completion value :=
  tryCatch
    (match storage !! key with
     | Some data => if isEmpty data then Normal (VArr []) else JSON_parse data
     | None => Normal (VArr [])
     end)
    (fun e => Normal (VArr [])).

(** [setItem] under the two keys, tasks first, when both writes succeed;
    [saveStateQuota] below has the writes that throw. *)
Definition saveState (w : World) : World :=
  let storage := <["todos" := JSON_stringify (todosValue (todos (state w)))]> (localStorage w) in
  let storage := <["history" := JSON_stringify (historyValue (history (state w)))]> storage in
  mkWorld (state w) storage (errorMessage w) (todoList w).

(** [loadState] assigns what [checkStorage] returned.  The state of this
    embedding is typed: the result is [None] when a stored value is not a
    collection of tasks, or of history entries. *)
Definition loadState (w : World) : completion (option World) :=
  match checkStorage "todos" (localStorage w) with
  | Throw e => Throw e
  | Normal tv =>
      match checkStorage "history" (localStorage w) with
      | Throw e => Throw e
      | Normal hv =>
          Normal
            (match asTodos tv, asHistory hv with
             | Some l, Some h => Some (withState (fun st => setHistory h (setTodos l st)) w)
             | _, _ => None
             end)
      end
  end.

(** ** Event handlers *)

(** The submit listener.  [preventDefault], [todoForm.reset()] and
    [todoInput.focus()] act on the form only, which is an input here. *)
Definition handleAddTodo (clock : Clock) (form : Submission) (w : World) : World :=
  let title := trim (todoInput form) in
  let date := todoDateInput form in
  if isEmpty title || isEmpty date then
    showError "Task title and date cannot be empty!" w
  else
    let w := hideError w in
    let newTodo :=
      mkTask (now clock) title (trim (todoDescriptionInput form)) date false in
    let w := withState (fun st => setTodos (todos st ++ [newTodo]) st) w in
    let w :=
      withState
        (logHistory ("Added task: " +:+ dquote +:+ text newTodo +:+ dquote)
                    (localeString clock)) w in
    render (saveState w).

(** The click listener of the list.  [saveState(); render();] run when
    [needsRender] was set, that is at the end of the delete branch and of the
    guarded part of the complete branch. *)
Definition handleListClick (clock : Clock) (e : ClickEvent) (w : World) : World :=
  match closestTodo e with
  | None => w
  | Some todoId =>
      let taskText :=
        match List.find (fun t => id t =? todoId)%Z (todos (state w)) with
        | Some t => orElse (text t) EmptyString
        | None => EmptyString
        end in
      if inTrashBtn e then
        let w :=
          withState
            (fun st =>
               setTodos (List.filter (fun todo => negb (id todo =? todoId)%Z) (todos st)) st)
            w in
        let w :=
          withState
            (logHistory ("Removed task: " +:+ dquote +:+ taskText +:+ dquote)
                        (localeString clock)) w in
        render (saveState w)
      else if inCompleteBtn e then
        match List.find (fun todo => id todo =? todoId)%Z (todos (state w)) with
        | Some todoToUpdate =>
            let flipped := negb (completed todoToUpdate) in
            let w :=
              withState
                (fun st =>
                   setTodos
                     (updateFirst (fun todo => id todo =? todoId)%Z
                                  (setCompleted flipped) (todos st)) st)
                w in
            let action := if flipped then "Completed" else "Marked as incomplete" in
            let w :=
              withState
                (logHistory (action +:+ " task: " +:+ dquote +:+ taskText +:+ dquote)
                            (localeString clock)) w in
            render (saveState w)
        | None => w
        end
      else if inTodoItem e then
        (* classList.toggle('expanded'): a class of the element, no state *)
        w
      else w
  end.

Definition handleFilterChange (selected : string) (w : World) : World :=
  render (withState (setCurrentFilter selected) w).

(** The [DOMContentLoaded] listener: [loadState(); render();] *)
Definition onContentLoaded (w : World) : completion (option World) :=
  match loadState w with
  | Throw e => Throw e
  | Normal r => Normal (option_map render r)
  end.

(** ** The application as a transition system *)

(** The world right after the script has been evaluated on a page whose
    storage area is [storage]. *)
Definition freshWorld (storage : gmap string string) : World :=
  mkWorld initialState storage EmptyString [].

Inductive Event :=
| Submit (clock : Clock) (form : Submission)
| ListClick (clock : Clock) (e : ClickEvent)
| FilterChange (selected : string).

Definition dispatch (ev : Event) (w : World) : World :=
  match ev with
  | Submit clock form => handleAddTodo clock form w
  | ListClick clock e => handleListClick clock e w
  | FilterChange selected => handleFilterChange selected w
  end.

(** A run of submissions, oldest first. *)
Definition submitAll (subs : list (Clock * Submission)) (w : World) : World :=
  fold_left (fun acc sub => handleAddTodo (fst sub) (snd sub) acc) subs w.

(** A run of [logHistory] calls, oldest first. *)
Definition logAll (entries : list HistoryEntry) (st : State) : State :=
  fold_left (fun acc item => logHistory (action item) (timestamp item) acc) entries st.

(** The guard of [handleAddTodo], as a test on the submission. *)
Definition accepted (form : Submission) : bool :=
  negb (isEmpty (trim (todoInput form)) || isEmpty (todoDateInput form)).

(** The object [newTodo] that [handleAddTodo] builds, and the entry it logs. *)
Definition newTodoOf (sub : Clock * Submission) : Task :=
  mkTask (now (fst sub)) (trim (todoInput (snd sub)))
         (trim (todoDescriptionInput (snd sub))) (todoDateInput (snd sub)) false.

Definition addedEntryOf (sub : Clock * Submission) : HistoryEntry :=
  mkEntry ("Added task: " +:+ dquote +:+ trim (todoInput (snd sub)) +:+ dquote)
          (localeString (fst sub)).

(** [renderHistory]: the text of the items of the history list, a single
    placeholder item when the history is empty. *)
Definition renderHistory (st : State) : list string :=
  match history st with
  | [] => ["No activity yet."]
  | _ :: _ =>
      map (fun item => "[" +:+ timestamp item +:+ "] - " +:+ action item) (history st)
  end.

(** The text of the action that the complete branch logs for a task whose
    flag has become [flag]. *)
Definition toggleAction (flag : bool) (taskText : string) : string :=
  (if flag then "Completed" else "Marked as incomplete") +:+ " task: " +:+
  dquote +:+ taskText +:+ dquote.

(** ** Writes that can fail

    [localStorage.setItem] throws when the value does not fit the quota of
    the origin, and then leaves the storage area as it was.  No handler
    catches that exception: it leaves [saveState] and the handler at once,
    after the state object was changed and before [render()].  Whether a
    write fits is the platform's decision, [fits]. *)
Variable fits : gmap string string → string → string → bool.

(** [None]: the call throws. *)
Definition setItem (key value : string) (storage : gmap string string)
  : option (gmap string string) :=
  if fits storage key value then Some (<[key := value]> storage) else None.

(** How a handler ends: it returns, or an exception leaves it; either way
    with the world as it is at that moment. *)
Inductive outcome : Type :=
| Completed (w : World)
| Aborted (w : World).

Definition worldOf (o : outcome) : World :=
  match o with
  | Completed w => w
  | Aborted w => w
  end.

(** [saveState] over writes that can fail. *)
Definition saveStateQuota (w : World) : outcome :=
  match setItem "todos" (JSON_stringify (todosValue (todos (state w)))) (localStorage w) with
  | None => Aborted w
  | Some storage =>
      match setItem "history" (JSON_stringify (historyValue (history (state w)))) storage with
      | None => Aborted (mkWorld (state w) storage (errorMessage w) (todoList w))
      | Some storage' => Completed (mkWorld (state w) storage' (errorMessage w) (todoList w))
      end
  end.

(** [saveState(); render();] *)
Definition saveAndRender (w : World) : outcome :=
  match saveStateQuota w with
  | Completed w' => Completed (render w')
  | Aborted w' => Aborted w'
  end.

(** [handleAddTodo] over writes that can fail. *)
Definition handleAddTodoQuota (clock : Clock) (form : Submission) (w : World) : outcome :=
  let title := trim (todoInput form) in
  let date := todoDateInput form in
  if isEmpty title || isEmpty date then
    Completed (showError "Task title and date cannot be empty!" w)
  else
    let w := hideError w in
    let newTodo :=
      mkTask (now clock) title (trim (todoDescriptionInput form)) date false in
    let w := withState (fun st => setTodos (todos st ++ [newTodo]) st) w in
    let w :=
      withState
        (logHistory ("Added task: " +:+ dquote +:+ text newTodo +:+ dquote)
                    (localeString clock)) w in
    saveAndRender w.

(** [handleListClick] over writes that can fail. *)
Definition handleListClickQuota (clock : Clock) (e : ClickEvent) (w : World) : outcome :=
  match closestTodo e with
  | None => Completed w
  | Some todoId =>
      let taskText :=
        match List.find (fun t => id t =? todoId)%Z (todos (state w)) with
        | Some t => orElse (text t) EmptyString
        | None => EmptyString
        end in
      if inTrashBtn e then
        let w :=
          withState
            (fun st =>
               setTodos (List.filter (fun todo => negb (id todo =? todoId)%Z) (todos st)) st)
            w in
        let w :=
          withState
            (logHistory ("Removed task: " +:+ dquote +:+ taskText +:+ dquote)
                        (localeString clock)) w in
        saveAndRender w
      else if inCompleteBtn e then
        match List.find (fun todo => id todo =? todoId)%Z (todos (state w)) with
        | Some todoToUpdate =>
            let flipped := negb (completed todoToUpdate) in
            let w :=
              withState
                (fun st =>
                   setTodos
                     (updateFirst (fun todo => id todo =? todoId)%Z
                                  (setCompleted flipped) (todos st)) st)
                w in
            let action := if flipped then "Completed" else "Marked as incomplete" in
            let w :=
              withState
                (logHistory (action +:+ " task: " +:+ dquote +:+ taskText +:+ dquote)
                            (localeString clock)) w in
            saveAndRender w
        | None => Completed w
        end
      else if inTodoItem e then Completed w
      else Completed w
  end.

Definition dispatchQuota (ev : Event) (w : World) : outcome :=
  match ev with
  | Submit clock form => handleAddTodoQuota clock form w
  | ListClick clock e => handleListClickQuota clock e w
  | FilterChange selected => Completed (handleFilterChange selected w)
  end.

(** ** Facts about strings *)

Lemma isEmpty_true (s : string) : isEmpty s = true ↔ s = EmptyString.
Proof. destruct s; simpl; split; congruence. Qed.

Lemma isEmpty_false (s : string) : isEmpty s = false ↔ s ≠ EmptyString.
Proof. destruct s; simpl; split; congruence. Qed.

Lemma trimStart_blank (s : string) : trimStart s = EmptyString ↔ blank s = true.
Proof.
  unfold blank. induction s as [|c s IH]; simpl.
  - tauto.
  - destruct (isWhiteSpace c); simpl; [exact IH | split; discriminate].
Qed.

Lemma trimStart_head (s : string) c rest :
  trimStart s = String c rest → isWhiteSpace c = false.
Proof.
  induction s as [|d s IH]; simpl; [discriminate |].
  destruct (isWhiteSpace d) eqn:Hd; [exact IH |].
  intros [= <- _]. exact Hd.
Qed.

Lemma trimEnd_keeps_head c rest :
  isWhiteSpace c = false → trimEnd (String c rest) ≠ EmptyString.
Proof.
  intros Hc. simpl. rewrite Hc. destruct (trimEnd rest); discriminate.
Qed.

(** [trim] returns the empty string on blank strings, and on no other. *)
Lemma trim_blank (s : string) : trim s = EmptyString ↔ blank s = true.
Proof.
  rewrite <- trimStart_blank. unfold trim. split.
  - destruct (trimStart s) as [|c rest] eqn:Hs; [reflexivity |].
    intros Ht. exfalso. revert Ht.
    apply trimEnd_keeps_head. exact (trimStart_head _ _ _ Hs).
  - intros ->. reflexivity.
Qed.

(** ** The filtered projection *)

Lemma filter_sublist {A : Type} (p : A → bool) (l : list A) :
  sublist (List.filter p l) l.
Proof.
  induction l as [|x l IH]; simpl.
  - constructor.
  - destruct (p x); [apply sublist_skip | apply sublist_cons]; exact IH.
Qed.

Lemma filter_split {A : Type} (p : A → bool) (l : list A) :
  l ≡ₚ List.filter p l ++ List.filter (fun x => negb (p x)) l.
Proof.
  induction l as [|x l IH]; simpl; [reflexivity |].
  destruct (p x); simpl.
  - constructor. exact IH.
  - rewrite <- Permutation_middle. constructor. exact IH.
Qed.

Lemma filter_true {A : Type} (p : A → bool) (l : list A) :
  (∀ x, p x = true) → List.filter p l = l.
Proof.
  intros Hp. induction l as [|x l IH]; simpl; [reflexivity |].
  rewrite Hp, IH. reflexivity.
Qed.

(** C6.  For every sequence of tasks, the projection that [render] shows
    under the filter 'completed' is made of exactly the completed tasks,
    under 'incomplete' of exactly the others, under 'all' of every task:
    each projection is a subsequence of the tasks (same order, tasks as
    they are), its tasks all carry the flag asked for, the two partial
    projections share the tasks out between them, and rendering leaves
    the state as it is. *)
Theorem filtered_projection (w : World) (l : list Task) (h : list HistoryEntry) :
  let shown (f : string) := filteredTodos (mkState l h f) in
  shown "all" = l
  ∧ sublist (shown "completed") l
  ∧ sublist (shown "incomplete") l
  ∧ Forall (fun t => completed t = true) (shown "completed")
  ∧ Forall (fun t => completed t = false) (shown "incomplete")
  ∧ l ≡ₚ shown "completed" ++ shown "incomplete"
  ∧ todoList (render w) = filteredTodos (state w)
  ∧ state (render w) = state w.
Proof.
  simpl. unfold filteredTodos. simpl.
  repeat split.
  - apply filter_true. reflexivity.
  - apply filter_sublist.
  - apply filter_sublist.
  - apply List.Forall_forall. intros t Ht. apply filter_In in Ht. exact (proj2 Ht).
  - apply List.Forall_forall. intros t Ht. apply filter_In in Ht.
    destruct Ht as [_ Ht]. unfold passesFilter in Ht. simpl in Ht.
    destruct (completed t); [discriminate | reflexivity].
  - apply (filter_split completed).
Qed.

(** C10.  Every filter value other than 'completed' and 'incomplete' shows
    every task, unchanged and in the original order, exactly as 'all'
    does. *)
Theorem unknown_filter_is_all (st : State) :
  currentFilter st ≠ "completed" →
  currentFilter st ≠ "incomplete" →
  filteredTodos st = todos st
  ∧ filteredTodos st = filteredTodos (setCurrentFilter "all" st).
Proof.
  intros Hc Hi.
  assert (Hall : ∀ l, List.filter (passesFilter (currentFilter st)) l = l).
  { intros l. apply filter_true. intros t. unfold passesFilter.
    apply String.eqb_neq in Hc, Hi. rewrite Hc, Hi. reflexivity. }
  unfold filteredTodos. split; [apply Hall |].
  rewrite Hall. simpl. symmetry. apply filter_true. reflexivity.
Qed.

(** ** Rejected submissions *)

(** C4.  A submission whose title is empty or blank, or whose date is
    empty, changes neither the tasks nor the history (the state object is
    as it was), writes nothing to the storage area, leaves the rendered
    list alone and shows a non-empty error message. *)
Theorem invalid_submission_rejected (clock : Clock) (form : Submission) (w : World) :
  blank (todoInput form) = true ∨ todoDateInput form = EmptyString →
  let w' := handleAddTodo clock form w in
  state w' = state w
  ∧ localStorage w' = localStorage w
  ∧ todoList w' = todoList w
  ∧ errorMessage w' = "Task title and date cannot be empty!"
  ∧ errorMessage w' ≠ EmptyString.
Proof.
  intros Hbad. unfold handleAddTodo.
  assert (Hguard : isEmpty (trim (todoInput form)) || isEmpty (todoDateInput form) = true).
  { apply orb_true_iff. destruct Hbad as [Hb | Hd].
    - left. apply isEmpty_true, trim_blank, Hb.
    - right. apply isEmpty_true, Hd. }
  rewrite Hguard. simpl. repeat split. discriminate.
Qed.

(** ** Reading the storage area *)

(** C9.  For every key, [checkStorage] completes normally, whatever the
    storage area holds; it returns the empty array when the key is missing
    and when [JSON.parse] throws on the stored text. *)
Theorem checkStorage_recovers (key : string) (storage : gmap string string) :
  (∃ v, checkStorage key storage = Normal v)
  ∧ (storage !! key = None → checkStorage key storage = Normal (VArr []))
  ∧ (∀ data e, storage !! key = Some data → JSON_parse data = Throw e →
       checkStorage key storage = Normal (VArr [])).
Proof.
  unfold checkStorage. repeat split.
  - destruct (storage !! key) as [data|]; simpl; [| eauto].
    destruct (isEmpty data); simpl; [eauto |].
    destruct (JSON_parse data); simpl; eauto.
  - intros ->. reflexivity.
  - intros data e -> Hthrow. destruct (isEmpty data); [reflexivity |].
    rewrite Hthrow. reflexivity.
Qed.

(** ** The activity log *)

Lemma removelast_cons {A : Type} (x : A) (l : list A) :
  l ≠ [] → removelast (x :: l) = x :: removelast l.
Proof. destruct l; [congruence | reflexivity]. Qed.

Lemma removelast_length {A : Type} (l : list A) :
  length (removelast l) = pred (length l).
Proof.
  induction l as [|x l IH]; [reflexivity |].
  destruct l as [|y l]; [reflexivity |].
  rewrite removelast_cons by discriminate.
  simpl length in *. rewrite IH. reflexivity.
Qed.

(** What [logHistory] leaves in the log: the new entry in front, then the
    old entries, without the oldest one when 30 were already held. *)
Lemma logHistory_history (action timestamp : string) (st : State) :
  history (logHistory action timestamp st) =
  mkEntry action timestamp ::
    (if (length (history st) <? 30)%nat then history st else removelast (history st)).
Proof.
  unfold logHistory. simpl history. simpl length.
  destruct (Nat.ltb_spec (length (history st)) 30) as [Hlt | Hge].
  - destruct (Nat.ltb_spec 30 (S (length (history st)))); [lia | reflexivity].
  - destruct (Nat.ltb_spec 30 (S (length (history st)))); [| lia].
    apply removelast_cons. destruct (history st); simpl in *; [lia | discriminate].
Qed.

Lemma logHistory_length (action timestamp : string) (st : State) :
  length (history (logHistory action timestamp st)) =
  if (length (history st) <? 30)%nat then S (length (history st))
  else length (history st).
Proof.
  rewrite logHistory_history.
  destruct (Nat.ltb_spec (length (history st)) 30) as [Hlt | Hge]; simpl.
  - reflexivity.
  - rewrite removelast_length. lia.
Qed.

Lemma logHistory_todos (action timestamp : string) (st : State) :
  todos (logHistory action timestamp st) = todos st.
Proof. reflexivity. Qed.

Lemma logHistory_bound (action timestamp : string) (st : State) :
  (length (history st) ≤ 30)%nat →
  (length (history (logHistory action timestamp st)) ≤ 30)%nat.
Proof.
  intros Hle. rewrite logHistory_length.
  destruct (Nat.ltb_spec (length (history st)) 30); lia.
Qed.

(** ** Accepted submissions *)

Lemma valid_submission_guard (form : Submission) :
  blank (todoInput form) = false → todoDateInput form ≠ EmptyString →
  isEmpty (trim (todoInput form)) || isEmpty (todoDateInput form) = false.
Proof.
  intros Hb Hd. apply orb_false_iff. split.
  - apply isEmpty_false. rewrite trim_blank. congruence.
  - apply isEmpty_false, Hd.
Qed.

Lemma handleAddTodo_valid (clock : Clock) (form : Submission) (w : World) :
  blank (todoInput form) = false → todoDateInput form ≠ EmptyString →
  state (handleAddTodo clock form w) =
  logHistory ("Added task: " +:+ dquote +:+ trim (todoInput form) +:+ dquote)
             (localeString clock)
             (setTodos
                (todos (state w) ++
                 [mkTask (now clock) (trim (todoInput form))
                         (trim (todoDescriptionInput form)) (todoDateInput form) false])
                (state w)).
Proof.
  intros Hb Hd. unfold handleAddTodo.
  rewrite (valid_submission_guard form Hb Hd). reflexivity.
Qed.

(** C3, amended.  A submission with a non-blank title and a non-empty date
    appends exactly one task, with [completed = false], to the tasks and
    puts exactly one entry in front of the history; the number of tasks
    grows by one; the number of history entries grows by one while fewer
    than 30 were held, and stays what it was once 30 are held, the oldest
    entry leaving the log. *)
Theorem valid_submission_adds (clock : Clock) (form : Submission) (w : World) :
  blank (todoInput form) = false →
  todoDateInput form ≠ EmptyString →
  let w' := handleAddTodo clock form w in
  let old := history (state w) in
  let newTodo :=
    mkTask (now clock) (trim (todoInput form)) (trim (todoDescriptionInput form))
           (todoDateInput form) false in
  todos (state w') = todos (state w) ++ [newTodo]
  ∧ completed newTodo = false
  ∧ length (todos (state w')) = S (length (todos (state w)))
  ∧ history (state w') =
      mkEntry ("Added task: " +:+ dquote +:+ trim (todoInput form) +:+ dquote)
              (localeString clock)
      :: (if (length old <? 30)%nat then old else removelast old)
  ∧ length (history (state w')) =
      (if (length old <? 30)%nat then S (length old) else length old).
Proof.
  intros Hb Hd. simpl.
  rewrite (handleAddTodo_valid clock form w Hb Hd).
  rewrite logHistory_todos, logHistory_length, logHistory_history. simpl.
  repeat split. rewrite length_app. simpl. lia.
Qed.

(** ** Clicks in the list *)

Lemma filter_all {A : Type} (p : A → bool) (l : list A) :
  (∀ x, In x l → p x = true) → List.filter p l = l.
Proof.
  induction l as [|x l IH]; simpl; intros Hp; [reflexivity |].
  rewrite (Hp x) by (left; reflexivity).
  rewrite IH; [reflexivity |]. intros y Hy. apply Hp. right. exact Hy.
Qed.

Lemma find_missing (todoId : Z) (l : list Task) :
  (∀ t, In t l → id t ≠ todoId) →
  List.find (fun t => id t =? todoId)%Z l = None.
Proof.
  induction l as [|x l IH]; simpl; intros Hm; [reflexivity |].
  destruct (Z.eqb_spec (id x) todoId) as [Heq | _].
  - exfalso. apply (Hm x); [left; reflexivity | exact Heq].
  - apply IH. intros t Ht. apply Hm. right. exact Ht.
Qed.

Lemma filter_missing (todoId : Z) (l : list Task) :
  (∀ t, In t l → id t ≠ todoId) →
  List.filter (fun todo => negb (id todo =? todoId)%Z) l = l.
Proof.
  intros Hm. apply filter_all. intros t Ht.
  apply negb_true_iff, Z.eqb_neq, Hm, Ht.
Qed.

Lemma orElse_empty (s : string) : orElse s EmptyString = s.
Proof. destruct s; reflexivity. Qed.

(** In a sequence of tasks with pairwise distinct ids, [find] by the id of
    a task of the sequence returns that task, and the [filter] of the
    delete branch takes out that task and no other. *)
Lemma unique_id_lookup (t : Task) (l : list Task) :
  In t l → List.NoDup (map id l) →
  List.find (fun x => id x =? id t)%Z l = Some t
  ∧ ∃ before after,
      l = before ++ t :: after
      ∧ List.filter (fun todo => negb (id todo =? id t)%Z) l = before ++ after.
Proof.
  induction l as [|x l IH]; simpl; intros Hin Hnd; [contradiction |].
  inversion Hnd as [|? ? Hx Hl]; subst.
  destruct Hin as [-> | Hin].
  - rewrite Z.eqb_refl. simpl. split; [reflexivity |].
    exists [], l. split; [reflexivity |]. simpl.
    apply filter_missing. intros t' Ht' Heq.
    apply Hx. rewrite <- Heq. apply in_map. exact Ht'.
  - assert (Hne : id x ≠ id t).
    { intros Heq. apply Hx. rewrite Heq. apply in_map. exact Hin. }
    apply Z.eqb_neq in Hne. rewrite Hne. simpl.
    destruct (IH Hin Hl) as [Hfind (before & after & Hsplit & Hfilter)].
    split; [exact Hfind |].
    exists (x :: before), after. simpl. rewrite <- Hsplit, Hfilter. tauto.
Qed.

(** The delete branch of [handleListClick], whatever the id. *)
Lemma handleListClick_trash (clock : Clock) (e : ClickEvent) (w : World) (todoId : Z) :
  closestTodo e = Some todoId → inTrashBtn e = true →
  state (handleListClick clock e w) =
  logHistory
    ("Removed task: " +:+ dquote +:+
     match List.find (fun t => id t =? todoId)%Z (todos (state w)) with
     | Some t => text t
     | None => EmptyString
     end +:+ dquote)
    (localeString clock)
    (setTodos (List.filter (fun todo => negb (id todo =? todoId)%Z) (todos (state w)))
              (state w)).
Proof.
  intros He Ht. unfold handleListClick. rewrite He, Ht. simpl.
  destruct (List.find _ (todos (state w))); [rewrite orElse_empty |]; reflexivity.
Qed.

(** C7, amended.  In a store whose ids are pairwise distinct, deleting a
    task that is present takes exactly that task out: one task less, no
    task with that id left, the other tasks in their order, and one entry
    in front of the history that quotes the text the task had. *)
Theorem remove_present_task (clock : Clock) (e : ClickEvent) (w : World) (t : Task) :
  closestTodo e = Some (id t) →
  inTrashBtn e = true →
  In t (todos (state w)) →
  List.NoDup (map id (todos (state w))) →
  let w' := handleListClick clock e w in
  let old := history (state w) in
  S (length (todos (state w'))) = length (todos (state w))
  ∧ (∀ t', In t' (todos (state w')) → id t' ≠ id t)
  ∧ (∃ before after,
       todos (state w) = before ++ t :: after
       ∧ todos (state w') = before ++ after)
  ∧ history (state w') =
      mkEntry ("Removed task: " +:+ dquote +:+ text t +:+ dquote) (localeString clock)
      :: (if (length old <? 30)%nat then old else removelast old).
Proof.
  intros He Hb Hin Hnd. simpl.
  rewrite (handleListClick_trash clock e w (id t) He Hb).
  destruct (unique_id_lookup t _ Hin Hnd) as [Hfind (before & after & Hsplit & Hfilter)].
  rewrite logHistory_todos, logHistory_history, Hfind. simpl.
  rewrite Hfilter. repeat split.
  - rewrite Hsplit, !length_app. simpl. lia.
  - intros t' Ht'. rewrite <- Hfilter in Ht'. apply filter_In in Ht'.
    apply Z.eqb_neq, negb_true_iff, Ht'.
  - exists before, after. split; [exact Hsplit | reflexivity].
Qed.

(** The complete-toggle branch does nothing when no task has the id. *)
Lemma toggle_missing_id_noop (clock : Clock) (e : ClickEvent) (w : World) (todoId : Z) :
  closestTodo e = Some todoId → inTrashBtn e = false → inCompleteBtn e = true →
  (∀ t, In t (todos (state w)) → id t ≠ todoId) →
  handleListClick clock e w = w.
Proof.
  intros He Ht Hc Hm. unfold handleListClick.
  rewrite He, Ht, Hc, (find_missing todoId _ Hm). reflexivity.
Qed.

(** C1, the delete branch.  When no task has the id, the delete action
    leaves the tasks as they are but still logs the removal of a task with
    an empty text and saves: the history gets a new first entry (and, with
    fewer than 30 entries held, differs from what it was), and the storage
    area holds the new history. *)
Theorem delete_missing_id_logs (clock : Clock) (e : ClickEvent) (w : World) (todoId : Z) :
  closestTodo e = Some todoId →
  inTrashBtn e = true →
  (∀ t, In t (todos (state w)) → id t ≠ todoId) →
  let w' := handleListClick clock e w in
  let old := history (state w) in
  todos (state w') = todos (state w)
  ∧ history (state w') =
      mkEntry ("Removed task: " +:+ dquote +:+ dquote) (localeString clock)
      :: (if (length old <? 30)%nat then old else removelast old)
  ∧ (length old < 30 → history (state w') ≠ old)
  ∧ localStorage w' !! "history" =
      Some (JSON_stringify (historyValue (history (state w')))).
Proof.
  intros He Ht Hm. simpl.
  assert (Hsaved :
    localStorage (handleListClick clock e w) !! "history" =
    Some (JSON_stringify (historyValue (history (state (handleListClick clock e w)))))).
  { unfold handleListClick. rewrite He, Ht. simpl. apply lookup_insert_eq. }
  assert (Hst := handleListClick_trash clock e w todoId He Ht).
  rewrite (find_missing todoId _ Hm) in Hst.
  rewrite Hsaved, Hst, logHistory_todos, logHistory_history. simpl.
  rewrite (filter_missing todoId _ Hm).
  repeat split.
  intros Hlt Heq. apply (f_equal (@length _)) in Heq.
  apply Nat.ltb_lt in Hlt. rewrite Hlt in Heq. simpl in Heq. lia.
Qed.

(** ** Task ids *)

Lemma handleAddTodo_ids (clock : Clock) (form : Submission) (w : World) :
  map id (todos (state (handleAddTodo clock form w))) =
  map id (todos (state w)) ++ (if accepted form then [now clock] else []).
Proof.
  unfold handleAddTodo, accepted.
  destruct (isEmpty (trim (todoInput form)) || isEmpty (todoDateInput form)); simpl.
  - rewrite app_nil_r. reflexivity.
  - rewrite map_app. reflexivity.
Qed.

Lemma submitAll_ids (subs : list (Clock * Submission)) (w : World) :
  map id (todos (state (submitAll subs w))) =
  map id (todos (state w))
  ++ map (fun sub => now (fst sub)) (List.filter (fun sub => accepted (snd sub)) subs).
Proof.
  revert w. induction subs as [|[clock form] subs IH]; intros w.
  - simpl. rewrite app_nil_r. reflexivity.
  - unfold submitAll. simpl fold_left. fold (submitAll subs (handleAddTodo clock form w)).
    rewrite IH, handleAddTodo_ids. simpl List.filter.
    destruct (accepted form); simpl.
    + rewrite <- app_assoc. reflexivity.
    + rewrite app_nil_r. reflexivity.
Qed.

Lemma increasing_NoDup (l : list Z) : StronglySorted Z.lt l → List.NoDup l.
Proof.
  induction 1 as [|a l _ IH Hall]; constructor; [| exact IH].
  intros Hin. rewrite List.Forall_forall in Hall.
  specialize (Hall a Hin). lia.
Qed.

(** C5, amended.  The id of a new task is the clock reading [Date.now()]
    of its submission: an accepted submission adds the reading to the ids
    of the store, and after any run of submissions the ids are the ids the
    store had, followed by the readings of the accepted submissions in
    order.  So the ids are pairwise distinct exactly when the former ids
    and those readings are pairwise distinct; readings that repeat give
    ids that repeat; and readings that are strictly increasing and later
    than every id in a store of distinct ids keep the ids distinct. *)
Theorem ids_follow_the_clock (subs : list (Clock * Submission)) (w : World) :
  let former := map id (todos (state w)) in
  let readings :=
    map (fun sub => now (fst sub)) (List.filter (fun sub => accepted (snd sub)) subs) in
  let ids := map id (todos (state (submitAll subs w))) in
  (∀ clock form,
     accepted form = true →
     map id (todos (state (handleAddTodo clock form w))) = former ++ [now clock])
  ∧ ids = former ++ readings
  ∧ (List.NoDup ids ↔ List.NoDup (former ++ readings))
  ∧ (¬ List.NoDup readings → ¬ List.NoDup ids)
  ∧ (List.NoDup former →
     (∀ i r, In i former → In r readings → (i < r)%Z) →
     StronglySorted Z.lt readings →
     List.NoDup ids).
Proof.
  cbv zeta. rewrite submitAll_ids.
  split; [| split; [| split; [| split]]].
  - intros clock form Hacc. rewrite handleAddTodo_ids, Hacc. reflexivity.
  - reflexivity.
  - reflexivity.
  - intros Hrep Hnd. apply Hrep. exact (NoDup_app_remove_l _ _ Hnd).
  - intros Hformer Hlater Hinc.
    apply List.NoDup_app; [exact Hformer | exact (increasing_NoDup _ Hinc) |].
    intros i Hi Hr. specialize (Hlater i i Hi Hr). lia.
Qed.

(** ** Persistence under the codec contract *)

Lemma asTodos_todosValue (l : list Task) : asTodos (todosValue l) = Some l.
Proof.
  unfold asTodos, todosValue. induction l as [|[i t d dt c] l IH]; simpl.
  - reflexivity.
  - simpl in IH. rewrite IH. reflexivity.
Qed.

Lemma asHistory_historyValue (h : list HistoryEntry) :
  asHistory (historyValue h) = Some h.
Proof.
  unfold asHistory, historyValue. induction h as [|[a ts] h IH]; simpl.
  - reflexivity.
  - simpl in IH. rewrite IH. reflexivity.
Qed.

Lemma saveState_state (w : World) : state (saveState w) = state w.
Proof. reflexivity. Qed.

Lemma saveState_todos (w : World) :
  localStorage (saveState w) !! "todos" =
  Some (JSON_stringify (todosValue (todos (state w)))).
Proof.
  unfold saveState. simpl.
  rewrite lookup_insert_ne by discriminate. apply lookup_insert_eq.
Qed.

Lemma saveState_history (w : World) :
  localStorage (saveState w) !! "history" =
  Some (JSON_stringify (historyValue (history (state w)))).
Proof. unfold saveState. simpl. apply lookup_insert_eq. Qed.

Lemma checkStorage_missing (key : string) (storage : gmap string string) :
  storage !! key = None → checkStorage key storage = Normal (VArr []).
Proof. intros Hk. unfold checkStorage. rewrite Hk. reflexivity. Qed.

Section Contract.

Hypothesis contract : codecContract JSON_stringify JSON_parse.

(** No well-formed value is written as the empty text, which
    [checkStorage] would take for a missing key. *)
Lemma stringify_nonempty (v : value) :
  wellFormed v → isEmpty (JSON_stringify v) = false.
Proof.
  intros Hv. destruct contract as [Hround Hempty].
  apply isEmpty_false. intros Heq.
  specialize (Hround v Hv). rewrite Heq, Hempty in Hround. discriminate.
Qed.

Lemma checkStorage_stored (key : string) (storage : gmap string string) (v : value) :
  wellFormed v → storage !! key = Some (JSON_stringify v) →
  checkStorage key storage = Normal v.
Proof.
  intros Hv Hk. unfold checkStorage.
  rewrite Hk, (stringify_nonempty v Hv), (proj1 contract v Hv). reflexivity.
Qed.

(** C8.  What [saveState] wrote, [loadState] reads back: on the storage
    area left by saving a world, [loadState] completes normally and
    assigns tasks and history equal to the saved ones, whatever state
    object it starts from; the filter is not part of what is saved. *)
Theorem save_load_roundtrip (w : World) (st : State) (err : string)
    (shown : list Task) :
  loadState (mkWorld st (localStorage (saveState w)) err shown) =
  Normal
    (Some
       (mkWorld (mkState (todos (state w)) (history (state w)) (currentFilter st))
                (localStorage (saveState w)) err shown)).
Proof.
  unfold loadState. cbn [localStorage].
  rewrite (checkStorage_stored "todos" _ (todosValue (todos (state w))));
    [| left; eauto | apply saveState_todos].
  rewrite (checkStorage_stored "history" _ (historyValue (history (state w))));
    [| right; eauto | apply saveState_history].
  rewrite asTodos_todosValue, asHistory_historyValue. reflexivity.
Qed.

End Contract.

(** ** Toggling a task *)

Lemma find_app_skip (p : Task → bool) (before after : list Task) (t : Task) :
  (∀ x, In x before → p x = false) → p t = true →
  List.find p (before ++ t :: after) = Some t.
Proof.
  intros Hb Ht. induction before as [|x before IH]; simpl.
  - rewrite Ht. reflexivity.
  - rewrite (Hb x) by (left; reflexivity). apply IH.
    intros y Hy. apply Hb. right. exact Hy.
Qed.

Lemma updateFirst_app_skip (p : Task → bool) (f : Task → Task)
    (before after : list Task) (t : Task) :
  (∀ x, In x before → p x = false) → p t = true →
  updateFirst p f (before ++ t :: after) = before ++ f t :: after.
Proof.
  intros Hb Ht. induction before as [|x before IH]; simpl.
  - rewrite Ht. reflexivity.
  - rewrite (Hb x) by (left; reflexivity). rewrite IH; [reflexivity |].
    intros y Hy. apply Hb. right. exact Hy.
Qed.

(** What [find] returns is the first element that satisfies the test. *)
Lemma find_split (p : Task → bool) (l : list Task) (t : Task) :
  List.find p l = Some t →
  ∃ before after,
    l = before ++ t :: after ∧ (∀ x, In x before → p x = false) ∧ p t = true.
Proof.
  induction l as [|x l IH]; simpl; [discriminate |].
  destruct (p x) eqn:Hx.
  - intros [= ->]. exists [], l. repeat split; [intros y [] | exact Hx].
  - intros Hfind. destruct (IH Hfind) as (before & after & -> & Hb & Ht).
    exists (x :: before), after. repeat split; [| exact Ht].
    intros y [<- | Hy]; [exact Hx | exact (Hb y Hy)].
Qed.

Lemma setCompleted_back (t : Task) (c : bool) :
  setCompleted (completed t) (setCompleted c t) = t.
Proof. destruct t. reflexivity. Qed.

Lemma state_render (w : World) : state (render w) = state w.
Proof. reflexivity. Qed.

Lemma state_withState (f : State → State) (w : World) :
  state (withState f w) = f (state w).
Proof. reflexivity. Qed.

Lemma todos_setTodos (l : list Task) (st : State) : todos (setTodos l st) = l.
Proof. reflexivity. Qed.

Lemma history_setTodos (l : list Task) (st : State) :
  history (setTodos l st) = history st.
Proof. reflexivity. Qed.

(** The complete branch of [handleListClick] when [find] returns a task. *)
Lemma handleListClick_complete (clock : Clock) (e : ClickEvent) (w : World)
    (todoId : Z) (t : Task) :
  closestTodo e = Some todoId → inTrashBtn e = false → inCompleteBtn e = true →
  List.find (fun x => id x =? todoId)%Z (todos (state w)) = Some t →
  handleListClick clock e w =
  render
    (saveState
       (withState
          (logHistory (toggleAction (negb (completed t)) (text t)) (localeString clock))
          (withState
             (fun st =>
                setTodos
                  (updateFirst (fun x => id x =? todoId)%Z
                               (setCompleted (negb (completed t))) (todos st)) st)
             w))).
Proof.
  intros He Ht Hc Hfind. unfold handleListClick.
  rewrite He, Ht, Hc, Hfind, orElse_empty. reflexivity.
Qed.


Lemma capped_log_head (entry : HistoryEntry) (tail : list HistoryEntry) :
  ∃ tail',
    (if (length (entry :: tail) <? 30)%nat then entry :: tail
     else removelast (entry :: tail)) = entry :: tail'.
Proof.
  destruct (Nat.ltb_spec (length (entry :: tail)) 30) as [Hlt | Hge]; [eauto |].
  destruct tail as [|x tail]; [simpl in Hge; lia |].
  rewrite removelast_cons by discriminate. eauto.
Qed.

(** X2.  Pressing the complete button of a task twice gives back the tasks
    as they were, and leaves two entries on top of the history: the one of
    the second press above the one of the first, the two naming opposite
    transitions. *)
Theorem toggle_twice_restores (clock1 clock2 : Clock) (e : ClickEvent) (w : World)
    (todoId : Z) (t : Task) :
  closestTodo e = Some todoId → inTrashBtn e = false → inCompleteBtn e = true →
  List.find (fun x => id x =? todoId)%Z (todos (state w)) = Some t →
  let w2 := handleListClick clock2 e (handleListClick clock1 e w) in
  todos (state w2) = todos (state w)
  ∧ ∃ older,
      history (state w2) =
      mkEntry (toggleAction (completed t) (text t)) (localeString clock2)
      :: mkEntry (toggleAction (negb (completed t)) (text t)) (localeString clock1)
      :: older.
Proof.
  intros He Ht Hc Hfind. cbv zeta.
  destruct (find_split _ _ _ Hfind) as (before & after & Hsplit & Hb & Hp).
  rewrite (handleListClick_complete clock1 e w todoId t He Ht Hc Hfind).
  set (t1 := setCompleted (negb (completed t)) t).
  set (w1 := render (saveState _)).
  assert (Htodos1 : todos (state w1) = before ++ t1 :: after).
  { subst w1. rewrite state_render, saveState_state, !state_withState.
    rewrite logHistory_todos, todos_setTodos, Hsplit.
    apply updateFirst_app_skip; assumption. }
  assert (Hfind1 : List.find (fun x => id x =? todoId)%Z (todos (state w1)) = Some t1).
  { rewrite Htodos1. apply find_app_skip; assumption. }
  rewrite (handleListClick_complete clock2 e w1 todoId t1 He Ht Hc Hfind1).
  assert (Hh1 : ∃ tail,
    history (state w1) =
    mkEntry (toggleAction (negb (completed t)) (text t)) (localeString clock1) :: tail).
  { subst w1. rewrite state_render, saveState_state, state_withState.
    rewrite logHistory_history. eauto. }
  rewrite state_render, saveState_state, !state_withState.
  split.
  - rewrite logHistory_todos, todos_setTodos, Htodos1.
    rewrite (updateFirst_app_skip _ _ before after t1 Hb Hp).
    subst t1. simpl. rewrite negb_involutive, Hsplit. destruct t. reflexivity.
  - rewrite logHistory_history, history_setTodos.
    subst t1. simpl completed. simpl text. rewrite negb_involutive.
    destruct Hh1 as (tail & ->).
    destruct (capped_log_head
                (mkEntry (toggleAction (negb (completed t)) (text t)) (localeString clock1))
                tail) as (tail' & ->).
    eauto.
Qed.

(** ** Deleting by id *)



(** ** Ids under clicks *)

Lemma sublist_map {A B : Type} (f : A → B) (l1 l2 : list A) :
  sublist l1 l2 → sublist (map f l1) (map f l2).
Proof.
  induction 1; simpl; [constructor | apply sublist_skip | apply sublist_cons];
    assumption.
Qed.

Lemma sublist_ListNoDup {A : Type} (l1 l2 : list A) :
  sublist l1 l2 → List.NoDup l2 → List.NoDup l1.
Proof.
  intros Hsub Hnd. apply NoDup_ListNoDup. apply NoDup_ListNoDup in Hnd.
  eapply sublist_NoDup; eassumption.
Qed.

Lemma updateFirst_ids (p : Task → bool) (c : bool) (l : list Task) :
  map id (updateFirst p (setCompleted c) l) = map id l.
Proof.
  induction l as [|x l IH]; simpl; [reflexivity |].
  destruct (p x); simpl; [reflexivity | rewrite IH; reflexivity].
Qed.

(** X4.  No click in the list brings in an id: after any click the ids of
    the store are a subsequence of the ids before, so ids that were pairwise
    distinct stay so. *)
Theorem clicks_keep_ids (clock : Clock) (e : ClickEvent) (w : World) :
  let w' := handleListClick clock e w in
  sublist (map id (todos (state w'))) (map id (todos (state w)))
  ∧ (List.NoDup (map id (todos (state w))) → List.NoDup (map id (todos (state w')))).
Proof.
  cbv zeta.
  assert (Hsub :
    sublist (map id (todos (state (handleListClick clock e w))))
            (map id (todos (state w)))).
  { unfold handleListClick.
    destruct (closestTodo e) as [todoId|]; [| reflexivity].
    destruct (inTrashBtn e).
    - rewrite state_render, saveState_state, !state_withState.
      rewrite logHistory_todos, todos_setTodos. apply sublist_map, filter_sublist.
    - destruct (inCompleteBtn e).
      + destruct (List.find _ (todos (state w))) as [t|]; [| reflexivity].
        rewrite state_render, saveState_state, !state_withState.
        rewrite logHistory_todos, todos_setTodos, updateFirst_ids. reflexivity.
      + destruct (inTodoItem e); reflexivity. }
  split; [exact Hsub | exact (sublist_ListNoDup _ _ Hsub)].
Qed.

(** ** The error message *)

(** X5.  Only the form touches the error message: an accepted submission
    clears it, and neither a click in the list nor a change of filter
    alters it. *)
Theorem error_message_lifecycle (clock : Clock) (form : Submission)
    (e : ClickEvent) (selected : string) (w : World) :
  (blank (todoInput form) = false → todoDateInput form ≠ EmptyString →
   errorMessage (handleAddTodo clock form w) = EmptyString)
  ∧ errorMessage (handleListClick clock e w) = errorMessage w
  ∧ errorMessage (handleFilterChange selected w) = errorMessage w.
Proof.
  split; [| split].
  - intros Hb Hd. unfold handleAddTodo.
    rewrite (valid_submission_guard form Hb Hd). reflexivity.
  - unfold handleListClick.
    destruct (closestTodo e) as [todoId|]; [| reflexivity].
    destruct (inTrashBtn e); [reflexivity |].
    destruct (inCompleteBtn e).
    + destruct (List.find _ (todos (state w))); reflexivity.
    + destruct (inTodoItem e); reflexivity.
  - reflexivity.
Qed.

(** ** What the events write *)

Lemma saveState_other_keys (w : World) (key : string) :
  key ≠ "todos" → key ≠ "history" →
  localStorage (saveState w) !! key = localStorage w !! key.
Proof.
  intros Ht Hh. unfold saveState. cbn [localStorage].
  rewrite !lookup_insert_ne by congruence. reflexivity.
Qed.

(** An event either leaves tasks, history and storage area as they are, or
    ends with [saveState(); render();]. *)
Lemma dispatch_cases (ev : Event) (w : World) :
  (todos (state (dispatch ev w)) = todos (state w)
   ∧ history (state (dispatch ev w)) = history (state w)
   ∧ localStorage (dispatch ev w) = localStorage w)
  ∨ ∃ w1, localStorage w1 = localStorage w ∧ dispatch ev w = render (saveState w1).
Proof.
  destruct ev as [clock form | clock e | selected]; simpl.
  - unfold handleAddTodo.
    destruct (isEmpty (trim (todoInput form)) || isEmpty (todoDateInput form)).
    + left. repeat split.
    + right. eexists. split; [| reflexivity]. reflexivity.
  - unfold handleListClick.
    destruct (closestTodo e) as [todoId|]; [| left; repeat split].
    destruct (inTrashBtn e).
    + right. eexists. split; [| reflexivity]. reflexivity.
    + destruct (inCompleteBtn e).
      * destruct (List.find _ (todos (state w))); [| left; repeat split].
        right. eexists. split; [| reflexivity]. reflexivity.
      * destruct (inTodoItem e); left; repeat split.
  - left. repeat split.
Qed.

(** [saveState] over writes that can fail either does what [saveState]
    does, or stops at a write that throws: the state object, the error
    message and the list are then as they were, and so is every key but
    'todos'. *)
Lemma saveStateQuota_cases (w : World) :
  saveStateQuota w = Completed (saveState w)
  ∨ ∃ w', saveStateQuota w = Aborted w'
          ∧ state w' = state w ∧ errorMessage w' = errorMessage w
          ∧ todoList w' = todoList w
          ∧ ∀ key, key ≠ "todos" → localStorage w' !! key = localStorage w !! key.
Proof.
  unfold saveStateQuota, setItem.
  destruct (fits (localStorage w) "todos" _).
  - destruct (fits _ "history" _).
    + left. reflexivity.
    + right. eexists. split; [reflexivity |]. repeat split.
      intros key Hkey. cbn [localStorage]. apply lookup_insert_ne. congruence.
  - right. exists w. repeat split.
Qed.

Lemma saveAndRender_cases (w : World) :
  saveAndRender w = Completed (render (saveState w))
  ∨ ∃ w', saveAndRender w = Aborted w'
          ∧ state w' = state w ∧ errorMessage w' = errorMessage w
          ∧ todoList w' = todoList w
          ∧ ∀ key, key ≠ "todos" → localStorage w' !! key = localStorage w !! key.
Proof.
  unfold saveAndRender.
  destruct (saveStateQuota_cases w) as [-> | (w' & -> & Hrest)].
  - left. reflexivity.
  - right. exists w'. split; [reflexivity | exact Hrest].
Qed.

(** An event over writes that can fail either ends as the event does when
    every write succeeds, or is one that saves, and stops at a write that
    throws. *)
Lemma dispatchQuota_cases (ev : Event) (w : World) :
  dispatchQuota ev w = Completed (dispatch ev w)
  ∨ ∃ w1 w',
      dispatch ev w = render (saveState w1)
      ∧ localStorage w1 = localStorage w ∧ todoList w1 = todoList w
      ∧ dispatchQuota ev w = Aborted w'
      ∧ state w' = state w1 ∧ errorMessage w' = errorMessage w1
      ∧ todoList w' = todoList w1
      ∧ ∀ key, key ≠ "todos" → localStorage w' !! key = localStorage w1 !! key.
Proof.
  assert (Hsave : ∀ w1,
    localStorage w1 = localStorage w → todoList w1 = todoList w →
    saveAndRender w1 = Completed (render (saveState w1))
    ∨ ∃ w1' w',
        render (saveState w1) = render (saveState w1')
        ∧ localStorage w1' = localStorage w ∧ todoList w1' = todoList w
        ∧ saveAndRender w1 = Aborted w'
        ∧ state w' = state w1' ∧ errorMessage w' = errorMessage w1'
        ∧ todoList w' = todoList w1'
        ∧ ∀ key, key ≠ "todos" → localStorage w' !! key = localStorage w1' !! key).
  { intros w1 Hs Hl. destruct (saveAndRender_cases w1) as [-> | (w' & -> & Hrest)].
    - left. reflexivity.
    - right. exists w1, w'. split; [reflexivity |]. split; [exact Hs |].
      split; [exact Hl |]. split; [reflexivity | exact Hrest]. }
  destruct ev as [clock form | clock e | selected]; simpl.
  - unfold handleAddTodoQuota, handleAddTodo.
    destruct (isEmpty (trim (todoInput form)) || isEmpty (todoDateInput form));
      [left; reflexivity |].
    apply Hsave; reflexivity.
  - unfold handleListClickQuota, handleListClick.
    destruct (closestTodo e) as [todoId|]; [| left; reflexivity].
    destruct (inTrashBtn e); [apply Hsave; reflexivity |].
    destruct (inCompleteBtn e).
    + destruct (List.find _ (todos (state w))); [| left; reflexivity].
      apply Hsave; reflexivity.
    + destruct (inTodoItem e); left; reflexivity.
  - left. reflexivity.
Qed.

(** The state object changes as it does when every write succeeds. *)
Lemma dispatchQuota_state (ev : Event) (w : World) :
  state (worldOf (dispatchQuota ev w)) = state (dispatch ev w).
Proof.
  destruct (dispatchQuota_cases ev w)
    as [-> | (w1 & w' & -> & _ & _ & -> & Hst & _)]; [reflexivity |].
  simpl. exact Hst.
Qed.

Lemma dispatchQuota_completed (ev : Event) (w w' : World) :
  dispatchQuota ev w = Completed w' → w' = dispatch ev w.
Proof.
  destruct (dispatchQuota_cases ev w) as [-> | (w1 & wa & _ & _ & _ & -> & _)];
    [intros [= <-]; reflexivity | discriminate].
Qed.

(** X6.  Whatever the event and whichever writes fail: the state object
    changes as it does when every write succeeds; the storage area is
    written under the keys 'todos' and 'history' only; when the handler
    returns, either tasks, history and storage area are all as they were or
    the two keys hold the encodings of the new tasks and of the new
    history; when a write throws, the list on the page is not redrawn and
    the key 'history' holds what it held. *)
Theorem events_write_two_keys (ev : Event) (w : World) :
  let o := dispatchQuota ev w in
  state (worldOf o) = state (dispatch ev w)
  ∧ (∀ key, key ≠ "todos" → key ≠ "history" →
            localStorage (worldOf o) !! key = localStorage w !! key)
  ∧ (∀ w', o = Completed w' →
       (todos (state w') = todos (state w)
        ∧ history (state w') = history (state w)
        ∧ localStorage w' = localStorage w)
       ∨ (localStorage w' !! "todos" = Some (JSON_stringify (todosValue (todos (state w'))))
          ∧ localStorage w' !! "history" =
            Some (JSON_stringify (historyValue (history (state w'))))))
  ∧ (∀ w', o = Aborted w' →
       todoList w' = todoList w
       ∧ localStorage w' !! "history" = localStorage w !! "history").
Proof.
  cbv zeta. split; [apply dispatchQuota_state |].
  destruct (dispatchQuota_cases ev w)
    as [Hc | (w1 & wa & Hd & Hs & Hl & Ha & Hst & _ & Hlist & Hkeys)].
  - rewrite Hc. cbn [worldOf]. split; [| split; [| intros w' [=]]].
    + intros key Hkt Hkh.
      destruct (dispatch_cases ev w) as [(_ & _ & ->) | (w1 & Hs & ->)]; [reflexivity |].
      cbn [localStorage render].
      rewrite (saveState_other_keys w1 key Hkt Hkh), Hs. reflexivity.
    + intros w' [= <-].
      destruct (dispatch_cases ev w) as [Hsame | (w1 & Hs & ->)]; [left; exact Hsame |].
      right. rewrite state_render, saveState_state. cbn [localStorage render].
      split; [apply saveState_todos | apply saveState_history].
  - rewrite Ha. cbn [worldOf]. split; [| split; [intros w' [=] |]].
    + intros key Hkt _. rewrite (Hkeys key Hkt), Hs. reflexivity.
    + intros w' [= <-]. split; [rewrite Hlist; exact Hl |].
      rewrite (Hkeys "history") by discriminate. rewrite Hs. reflexivity.
Qed.

(** ** Runs of log entries and of submissions *)

Lemma capped_log_firstn (entry : HistoryEntry) (h : list HistoryEntry) :
  length h ≤ 30 →
  entry :: (if (length h <? 30)%nat then h else removelast h) = firstn 30 (entry :: h).
Proof.
  intros Hle. destruct (Nat.ltb_spec (length h) 30) as [Hlt | Hge].
  - rewrite firstn_all2 by (simpl; lia). reflexivity.
  - rewrite removelast_firstn_len. replace (length h) with 30 by lia. reflexivity.
Qed.

Lemma firstn_app_firstn {A : Type} (n : nat) (a b : list A) :
  firstn n (a ++ firstn n b) = firstn n (a ++ b).
Proof.
  rewrite !take_app, take_take. f_equal. f_equal. lia.
Qed.

Lemma logHistory_firstn (action timestamp : string) (st : State) :
  length (history st) ≤ 30 →
  history (logHistory action timestamp st) =
  firstn 30 (mkEntry action timestamp :: history st).
Proof.
  intros Hle. rewrite logHistory_history. apply capped_log_firstn, Hle.
Qed.

(** X7.  The log keeps the 30 most recent entries, newest first: after a
    run of [logHistory] calls on a log of at most 30 entries, the history is
    the first 30 of the logged entries in reverse order followed by the old
    ones. *)
Theorem log_keeps_most_recent (entries : list HistoryEntry) (st : State) :
  length (history st) ≤ 30 →
  history (logAll entries st) = firstn 30 (rev entries ++ history st).
Proof.
  revert st. induction entries as [|[a ts] entries IH]; intros st Hle.
  - simpl. rewrite firstn_all2 by exact Hle. reflexivity.
  - unfold logAll. simpl fold_left. fold (logAll entries (logHistory a ts st)).
    rewrite IH by (apply logHistory_bound, Hle).
    rewrite (logHistory_firstn a ts st Hle), firstn_app_firstn.
    simpl rev. rewrite <- app_assoc. reflexivity.
Qed.

Lemma handleAddTodo_state (sub : Clock * Submission) (w : World) :
  state (handleAddTodo (fst sub) (snd sub) w) =
  if accepted (snd sub) then
    logHistory (action (addedEntryOf sub)) (timestamp (addedEntryOf sub))
               (setTodos (todos (state w) ++ [newTodoOf sub]) (state w))
  else state w.
Proof.
  unfold handleAddTodo, accepted.
  destruct (isEmpty (trim (todoInput (snd sub))) || isEmpty (todoDateInput (snd sub)));
    reflexivity.
Qed.

(** X8.  A run of submissions: the store ends with the tasks it had,
    followed by one task per accepted submission, in the order of
    submission, each with the trimmed title, the trimmed description, the
    date and the clock reading of its submission and not completed; a
    rejected submission adds nothing.  When the log held at most 30
    entries, it ends as the first 30 of the entries of the accepted
    submissions, latest first, followed by the old ones. *)
Theorem submissions_append_in_order (subs : list (Clock * Submission)) (w : World) :
  let kept := List.filter (fun sub => accepted (snd sub)) subs in
  todos (state (submitAll subs w)) = todos (state w) ++ map newTodoOf kept
  ∧ (length (history (state w)) ≤ 30 →
     history (state (submitAll subs w)) =
     firstn 30 (rev (map addedEntryOf kept) ++ history (state w))).
Proof.
  cbv zeta. revert w. induction subs as [|sub subs IH]; intros w.
  - simpl. rewrite app_nil_r. split; [reflexivity |].
    intros Hle. rewrite firstn_all2 by exact Hle. reflexivity.
  - unfold submitAll. simpl fold_left.
    fold (submitAll subs (handleAddTodo (fst sub) (snd sub) w)).
    destruct (IH (handleAddTodo (fst sub) (snd sub) w)) as [IHt IHh].
    rewrite IHt. simpl List.filter.
    pose proof (handleAddTodo_state sub w) as Hst.
    destruct (accepted (snd sub)).
    + split.
      * rewrite Hst, logHistory_todos, todos_setTodos. simpl map.
        rewrite <- app_assoc. reflexivity.
      * intros Hle. rewrite IHh by (rewrite Hst; apply logHistory_bound; exact Hle).
        rewrite Hst, logHistory_firstn by exact Hle.
        rewrite history_setTodos, firstn_app_firstn. simpl.
        rewrite <- app_assoc. reflexivity.
    + rewrite Hst in IHh |- *. split; [reflexivity | exact IHh].
Qed.

(** ** Adding, then deleting *)

(** X9.  Deleting a task right after it was added, under an id that no
    other task carries, gives back the tasks as they were; the history then
    starts with the removal and the addition, both quoting the trimmed
    title. *)
Theorem add_then_delete_restores (clock1 clock2 : Clock) (form : Submission)
    (e : ClickEvent) (w : World) :
  blank (todoInput form) = false → todoDateInput form ≠ EmptyString →
  (∀ x, In x (todos (state w)) → id x ≠ now clock1) →
  closestTodo e = Some (now clock1) → inTrashBtn e = true →
  let w2 := handleListClick clock2 e (handleAddTodo clock1 form w) in
  todos (state w2) = todos (state w)
  ∧ ∃ older,
      history (state w2) =
      mkEntry ("Removed task: " +:+ dquote +:+ trim (todoInput form) +:+ dquote)
              (localeString clock2)
      :: mkEntry ("Added task: " +:+ dquote +:+ trim (todoInput form) +:+ dquote)
                 (localeString clock1)
      :: older.
Proof.
  intros Hb Hd Hfresh He Ht. cbv zeta.
  rewrite (handleListClick_trash clock2 e _ (now clock1) He Ht).
  rewrite (handleAddTodo_valid clock1 form w Hb Hd).
  rewrite !logHistory_todos, !todos_setTodos.
  set (t := mkTask (now clock1) _ _ _ false).
  assert (Hskip : ∀ x, In x (todos (state w)) → (id x =? now clock1)%Z = false).
  { intros x Hx. apply Z.eqb_neq, Hfresh, Hx. }
  assert (Hfind :
    List.find (fun x => id x =? now clock1)%Z (todos (state w) ++ [t]) = Some t).
  { apply find_app_skip; [exact Hskip | apply Z.eqb_refl]. }
  rewrite Hfind. split.
  - rewrite List.filter_app, (filter_missing (now clock1) _ Hfresh). simpl.
    rewrite Z.eqb_refl. simpl. apply app_nil_r.
  - repeat first [rewrite logHistory_history | rewrite history_setTodos]. simpl text.
    destruct (capped_log_head
                (mkEntry ("Added task: " +:+ dquote +:+ trim (todoInput form) +:+ dquote)
                         (localeString clock1))
                (if (length (history (state w)) <? 30)%nat then history (state w)
                 else removelast (history (state w)))) as (older & Hhead).
    exists older. rewrite Hhead. reflexivity.
Qed.

(** ** The rendered list *)

Lemma dispatch_view (ev : Event) (w : World) :
  todoList w = filteredTodos (state w) →
  todoList (dispatch ev w) = filteredTodos (state (dispatch ev w)).
Proof.
  intros Hw. destruct ev as [clock form | clock e | selected]; simpl.
  - unfold handleAddTodo.
    destruct (isEmpty (trim (todoInput form)) || isEmpty (todoDateInput form));
      [exact Hw | reflexivity].
  - unfold handleListClick.
    destruct (closestTodo e) as [todoId|]; [| exact Hw].
    destruct (inTrashBtn e); [reflexivity |].
    destruct (inCompleteBtn e).
    + destruct (List.find _ (todos (state w))); [reflexivity | exact Hw].
    + destruct (inTodoItem e); exact Hw.
  - reflexivity.
Qed.

(** X10.  The list on the page and the state: when a handler returns and
    the list showed the projection of the tasks under the filter before,
    it does so after; when a write throws, the list is left as it was,
    whatever the state has become; and after the [DOMContentLoaded]
    listener the list shows the projection of the loaded tasks. *)
Theorem list_in_step_when_completed (ev : Event) (w : World) :
  (∀ w', dispatchQuota ev w = Completed w' →
         todoList w = filteredTodos (state w) →
         todoList w' = filteredTodos (state w'))
  ∧ (∀ w', dispatchQuota ev w = Aborted w' → todoList w' = todoList w)
  ∧ (∀ w0 w', onContentLoaded w0 = Normal (Some w') →
              todoList w' = filteredTodos (state w')).
Proof.
  split; [| split].
  - intros w' Hc Hw. rewrite (dispatchQuota_completed ev w w' Hc).
    apply dispatch_view, Hw.
  - intros w' Ha.
    destruct (dispatchQuota_cases ev w)
      as [Hc | (w1 & wa & _ & _ & Hl & Ha' & _ & _ & Hlist & _)].
    + rewrite Hc in Ha. discriminate Ha.
    + rewrite Ha' in Ha. injection Ha as <-. rewrite Hlist. exact Hl.
  - intros w0 w' Hload. unfold onContentLoaded in Hload.
    destruct (loadState w0) as [[r|]|]; try discriminate.
    injection Hload as <-. reflexivity.
Qed.

(** ** Stored texts *)

(** X11.  A key that is present: an empty stored text is read as the empty
    array, without being parsed; any other text that [JSON.parse] accepts is
    returned as parsed, whether or not it is an array. *)
Theorem checkStorage_present (key : string) (storage : gmap string string)
    (data : string) :
  storage !! key = Some data →
  (data = EmptyString → checkStorage key storage = Normal (VArr []))
  ∧ (∀ v, data ≠ EmptyString → JSON_parse data = Normal v →
          checkStorage key storage = Normal v).
Proof.
  intros Hk. unfold checkStorage. rewrite Hk. split.
  - intros ->. reflexivity.
  - intros v Hne Hv. apply isEmpty_false in Hne. rewrite Hne, Hv. reflexivity.
Qed.

(** ** Trimmed strings *)

Lemma trimEnd_idempotent (s : string) : trimEnd (trimEnd s) = trimEnd s.
Proof.
  induction s as [|c s IH]; [reflexivity |].
  simpl. destruct (trimEnd s) as [|d kept] eqn:Hs.
  - destruct (isWhiteSpace c) eqn:Hc; [reflexivity |]. simpl. rewrite Hc. reflexivity.
  - change (trimEnd (String c (String d kept))) with
      (match trimEnd (String d kept) with
       | EmptyString => if isWhiteSpace c then EmptyString else String c EmptyString
       | String d' kept' => String c (String d' kept')
       end).
    rewrite IH. reflexivity.
Qed.

Lemma trimEnd_head (s : string) (c : ascii) (rest : string) :
  trimEnd s = String c rest → ∃ rest', s = String c rest'.
Proof.
  destruct s as [|d s]; simpl; [discriminate |].
  destruct (trimEnd s); [destruct (isWhiteSpace d); [discriminate |] |];
    intros [= -> _]; eauto.
Qed.

Lemma trim_idempotent (s : string) : trim (trim s) = trim s.
Proof.
  unfold trim.
  assert (Hstart : trimStart (trimEnd (trimStart s)) = trimEnd (trimStart s)).
  { destruct (trimEnd (trimStart s)) as [|c rest] eqn:Hend; [reflexivity |].
    destruct (trimEnd_head _ _ _ Hend) as (rest' & Hs).
    simpl. rewrite (trimStart_head s c rest' Hs). reflexivity. }
  rewrite Hstart. apply trimEnd_idempotent.
Qed.

Lemma lookup_map {A B : Type} (f : A → B) (l : list A) (i : nat) (x : A) :
  l !! i = Some x → map f l !! i = Some (f x).
Proof.
  revert i. induction l as [|y l IH]; intros [|i]; simpl; try discriminate.
  - intros [= ->]. reflexivity.
  - apply IH.
Qed.

Section ContractMore.

Hypothesis contract : codecContract JSON_stringify JSON_parse.

(** Loading when each key is either absent or holds an encoded
    collection. *)
Lemma loadState_collections (st : State) (storage : gmap string string)
    (err : string) (shown : list Task)
    (saved : option (list Task)) (logged : option (list HistoryEntry)) :
  storage !! "todos" = option_map (fun l => JSON_stringify (todosValue l)) saved →
  storage !! "history" = option_map (fun h => JSON_stringify (historyValue h)) logged →
  loadState (mkWorld st storage err shown) =
  Normal
    (Some (mkWorld (mkState (default [] saved) (default [] logged) (currentFilter st))
                   storage err shown)).
Proof.
  intros Ht Hh. unfold loadState. cbn [localStorage].
  assert (Htv : checkStorage "todos" storage = Normal (todosValue (default [] saved))).
  { destruct saved as [l|]; simpl in *.
    - apply (checkStorage_stored contract); [left; eauto | exact Ht].
    - apply checkStorage_missing, Ht. }
  assert (Hhv :
    checkStorage "history" storage = Normal (historyValue (default [] logged))).
  { destruct logged as [h|]; simpl in *.
    - apply (checkStorage_stored contract); [right; eauto | exact Hh].
    - apply checkStorage_missing, Hh. }
  rewrite Htv, Hhv, asTodos_todosValue, asHistory_historyValue. reflexivity.
Qed.

(** X12.  The [DOMContentLoaded] listener reads the two keys independently:
    a key that is absent gives an empty collection, a key that holds an
    encoded collection gives that collection; the listener completes
    normally, keeps the filter and shows the loaded tasks under it.  On a
    first visit, with an empty storage area, the application starts with no
    task and no history. *)
Theorem content_loaded_per_key (st : State) (storage : gmap string string)
    (err : string) (shown : list Task)
    (saved : option (list Task)) (logged : option (list HistoryEntry)) :
  storage !! "todos" = option_map (fun l => JSON_stringify (todosValue l)) saved →
  storage !! "history" = option_map (fun h => JSON_stringify (historyValue h)) logged →
  let loaded := mkState (default [] saved) (default [] logged) (currentFilter st) in
  onContentLoaded (mkWorld st storage err shown) =
  Normal (Some (mkWorld loaded storage err (filteredTodos loaded))).
Proof.
  intros Ht Hh. cbv zeta. unfold onContentLoaded.
  rewrite (loadState_collections st storage err shown saved logged Ht Hh).
  reflexivity.
Qed.

(** X13.  What a returning handler changed is not lost on reload: after an
    event whose handler returned and that changed the tasks or the history,
    evaluating the script again over the storage area and loading gives
    exactly the new tasks and the new history, with the filter back to
    'all' and every task shown. *)
Theorem completed_changes_survive_reload (ev : Event) (w w' : World) :
  dispatchQuota ev w = Completed w' →
  todos (state w') ≠ todos (state w) ∨ history (state w') ≠ history (state w) →
  onContentLoaded (freshWorld (localStorage w')) =
  Normal
    (Some (mkWorld (mkState (todos (state w')) (history (state w')) "all")
                   (localStorage w') EmptyString (todos (state w')))).
Proof.
  intros Hc Hchanged. rewrite (dispatchQuota_completed ev w w' Hc) in *.
  destruct (dispatch_cases ev w) as [(Ht & Hh & _) | (w1 & _ & Heq)]; [tauto |].
  rewrite Heq. unfold onContentLoaded, freshWorld.
  rewrite (loadState_collections initialState _ EmptyString []
             (Some (todos (state w1))) (Some (history (state w1))));
    [| apply saveState_todos | apply saveState_history].
  cbn [option_map default]. unfold render, filteredTodos.
  cbn [state todos currentFilter localStorage errorMessage initialState].
  rewrite (filter_true (passesFilter "all")) by reflexivity.
  reflexivity.
Qed.

(** ** The cap of the history *)

Lemma logHistory_max (action timestamp : string) (st : State) :
  length (history (logHistory action timestamp st)) ≤ Nat.max 30 (length (history st)).
Proof.
  rewrite logHistory_length.
  destruct (Nat.ltb_spec (length (history st)) 30); lia.
Qed.

Lemma dispatch_history_max (ev : Event) (w : World) :
  length (history (state (dispatch ev w))) ≤ Nat.max 30 (length (history (state w))).
Proof.
  destruct ev as [clock form | clock e | selected]; simpl.
  - unfold handleAddTodo.
    destruct (isEmpty (trim (todoInput form)) || isEmpty (todoDateInput form));
      [simpl; lia |].
    rewrite state_render, saveState_state, state_withState.
      eapply Nat.le_trans; [apply logHistory_max | simpl; lia].
  - unfold handleListClick.
    destruct (closestTodo e) as [todoId|]; [| lia].
    destruct (inTrashBtn e).
    + rewrite state_render, saveState_state, state_withState.
      eapply Nat.le_trans; [apply logHistory_max | simpl; lia].
    + destruct (inCompleteBtn e).
      * destruct (List.find _ (todos (state w))); [| lia].
        rewrite state_render, saveState_state, state_withState.
      eapply Nat.le_trans; [apply logHistory_max | simpl; lia].
      * destruct (inTodoItem e); lia.
  - lia.
Qed.

(** C2, amended.  Every handler keeps the bound: after a submission, a
    click in the list or a change of filter on a state whose history holds
    at most 30 entries, the history holds at most 30 entries, and no
    handler makes a longer history longer; logging into a history of 30
    puts the new entry in front and drops exactly the last, oldest, one.
    Loading assigns the stored log as it is, whatever its length. *)
Theorem history_cap_kept :
  (∀ ev w, length (history (state w)) ≤ 30 →
           length (history (state (dispatch ev w))) ≤ 30)
  ∧ (∀ ev w, length (history (state (dispatch ev w)))
             ≤ Nat.max 30 (length (history (state w))))
  ∧ (∀ (action timestamp : string) (st : State),
       length (history st) = 30 →
       history (logHistory action timestamp st) =
         mkEntry action timestamp :: removelast (history st)
       ∧ length (history (logHistory action timestamp st)) = 30)
  ∧ (∀ (st : State) (storage : gmap string string) (err : string)
       (shown : list Task) (saved : option (list Task)) (h : list HistoryEntry),
       storage !! "todos" = option_map (fun l => JSON_stringify (todosValue l)) saved →
       storage !! "history" = Some (JSON_stringify (historyValue h)) →
       ∃ w', onContentLoaded (mkWorld st storage err shown) = Normal (Some w')
             ∧ history (state w') = h).
Proof.
  split; [| split; [| split]].
  - intros ev w Hle. pose proof (dispatch_history_max ev w). lia.
  - apply dispatch_history_max.
  - intros a ts st Hfull.
    rewrite logHistory_length, logHistory_history, Hfull. simpl. tauto.
  - intros st storage err shown saved h Ht Hh. unfold onContentLoaded.
    rewrite (loadState_collections st storage err shown saved (Some h) Ht Hh).
    eexists. split; reflexivity.
Qed.

(** ** Tidy tasks *)

Local Abbreviation tidyTask t :=
  (text t ≠ EmptyString ∧ date t ≠ EmptyString
   ∧ trim (text t) = text t ∧ trim (description t) = description t).

Lemma Forall_filter_keep {A : Type} (P : A → Prop) (p : A → bool) (l : list A) :
  Forall P l → Forall P (List.filter p l).
Proof.
  rewrite !List.Forall_forall. intros Hl x Hx. apply filter_In in Hx.
  apply Hl, Hx.
Qed.

Lemma Forall_updateFirst (P : Task → Prop) (p : Task → bool) (f : Task → Task)
    (l : list Task) :
  (∀ t, P t → P (f t)) → Forall P l → Forall P (updateFirst p f l).
Proof.
  intros Hf. induction 1 as [|x l Hx Hl IH]; simpl; [constructor |].
  destruct (p x); constructor; auto.
Qed.

Lemma tidy_dispatch (ev : Event) (w : World) :
  Forall (fun t => tidyTask t) (todos (state w)) →
  Forall (fun t => tidyTask t) (todos (state (dispatch ev w))).
Proof.
  intros Hw. destruct ev as [clock form | clock e | selected]; simpl.
  - unfold handleAddTodo.
    destruct (isEmpty (trim (todoInput form)) || isEmpty (todoDateInput form)) eqn:Hg;
      [exact Hw |].
    apply orb_false_iff in Hg. destruct Hg as [Htitle Hdate].
    apply isEmpty_false in Htitle, Hdate.
    rewrite state_render, saveState_state, !state_withState.
    rewrite logHistory_todos, todos_setTodos.
    apply Forall_app. split; [exact Hw |].
    constructor; [| constructor]. simpl.
    rewrite !trim_idempotent. tauto.
  - unfold handleListClick.
    destruct (closestTodo e) as [todoId|]; [| exact Hw].
    destruct (inTrashBtn e).
    + rewrite state_render, saveState_state, !state_withState.
      rewrite logHistory_todos, todos_setTodos.
      apply Forall_filter_keep, Hw.
    + destruct (inCompleteBtn e).
      * destruct (List.find _ (todos (state w))); [| exact Hw].
        rewrite state_render, saveState_state, !state_withState.
        rewrite logHistory_todos, todos_setTodos.
        apply Forall_updateFirst; [| exact Hw].
        intros x Hx. exact Hx.
      * destruct (inTodoItem e); exact Hw.
  - exact Hw.
Qed.

(** X14.  Every handler keeps the tasks tidy: when every task has a
    non-empty title and a non-empty date, and a title and a description
    without white space at either end, the same holds after any event,
    whether its handler returns or a write throws; and the task that an
    accepted submission adds is tidy. *)
Theorem events_keep_tasks_tidy (ev : Event) (w : World) :
  Forall (fun t => tidyTask t) (todos (state w)) →
  Forall (fun t => tidyTask t) (todos (state (dispatch ev w)))
  ∧ Forall (fun t => tidyTask t) (todos (state (worldOf (dispatchQuota ev w)))).
Proof.
  intros Hw. rewrite dispatchQuota_state. split; apply tidy_dispatch, Hw.
Qed.

(** X15.  The history list of the modal, for any history: the placeholder
    alone when the history is empty, otherwise one item per entry, in the
    order of the history, each made of the timestamp in brackets, a dash
    and the action; so between 1 and 30 items when the history holds at
    most 30 entries. *)
Theorem history_lines (st : State) :
  let lines := renderHistory st in
  length lines = Nat.max 1 (length (history st))
  ∧ (history st = [] → lines = ["No activity yet."])
  ∧ (∀ i item, history st !! i = Some item →
       lines !! i = Some ("[" +:+ timestamp item +:+ "] - " +:+ action item))
  ∧ (length (history st) ≤ 30 → 1 ≤ length lines ≤ 30).
Proof.
  cbv zeta. unfold renderHistory. destruct (history st) as [|item0 h] eqn:Hh.
  - simpl. split; [reflexivity |]. split; [reflexivity |]. split; [| lia].
    intros i item Hi. destruct i; discriminate Hi.
  - rewrite length_map. simpl length.
    split; [lia |]. split; [discriminate |]. split; [| lia].
    intros i item Hi. exact (lookup_map _ _ i item Hi).
Qed.

End ContractMore.

End Program.

(** ** The reference codec meets the contract *)

Lemma append_cons (x : ascii) (a b : string) : String x a +:+ b = String x (a +:+ b).
Proof. reflexivity. Qed.

Lemma append_assoc (a b c : string) : (a +:+ b) +:+ c = a +:+ (b +:+ c).
Proof.
  induction a as [|x a IH]; [reflexivity |].
  rewrite !append_cons, IH. reflexivity.
Qed.

Lemma append_empty_r (a : string) : a +:+ EmptyString = a.
Proof.
  induction a as [|x a IH]; [reflexivity |].
  rewrite append_cons, IH. reflexivity.
Qed.

Lemma length_append (a b : string) :
  String.length (a +:+ b) = String.length a + String.length b.
Proof.
  induction a as [|x a IH]; [reflexivity |].
  rewrite append_cons. simpl. rewrite IH. reflexivity.
Qed.

(** Reading back one printed character. *)
Lemma parseChars_printChar (c : ascii) (tl : string) :
  parseChars (printChar c +:+ tl) =
  match parseChars tl with
  | Some (body, after) => Some (String c body, after)
  | None => None
  end.
Proof. destruct c as [[] [] [] [] [] [] [] []]; reflexivity. Qed.

Lemma parseChars_printChars (s rest : string) :
  parseChars (printChars s +:+ String quoteChar rest) = Some (s, rest).
Proof.
  induction s as [|c s IH]; cbn [printChars].
  - reflexivity.
  - rewrite append_assoc, parseChars_printChar, IH. reflexivity.
Qed.

(** A text is delimited when it does not go on with a sign or a digit. *)
Local Abbreviation delimited rest :=
  (match rest with
   | EmptyString => True
   | String c _ => isNumberChar c = false
   end).

Local Abbreviation numeric s := (forallb isNumberChar (list_ascii_of_string s) = true).

Lemma spanNumber_token (s rest : string) :
  numeric s → delimited rest → spanNumber (s +:+ rest) = (s, rest).
Proof.
  intros Hs Hrest. induction s as [|c s IH]; simpl in *.
  - destruct rest as [|c rest]; [reflexivity |]. simpl. rewrite Hrest. reflexivity.
  - apply andb_true_iff in Hs. destruct Hs as [Hc Hs].
    rewrite Hc, (IH Hs). reflexivity.
Qed.

Lemma numeric_uint (d : Decimal.uint) :
  numeric (DecimalString.NilEmpty.string_of_uint d).
Proof. induction d; simpl; auto. Qed.

Lemma numeric_printNumber (n : Z) : numeric (printNumber n).
Proof.
  unfold printNumber. destruct (Z.to_int n) as [d | d]; simpl.
  - destruct d; simpl; auto using numeric_uint.
    all: apply (numeric_uint d).
  - destruct d; simpl; auto using numeric_uint.
    all: apply (numeric_uint d).
Qed.

Lemma int_of_printNumber (n : Z) :
  DecimalString.NilZero.int_of_string (printNumber n) = Some (Z.to_int n).
Proof.
  unfold printNumber. apply DecimalString.NilZero.isi.
  - destruct n; simpl; try discriminate.
    intros [= H]. exact (DecimalPos.Unsigned.to_uint_nonnil _ H).
  - destruct n; simpl; try discriminate.
    intros [= H]. exact (DecimalPos.Unsigned.to_uint_nonnil _ H).
Qed.

Lemma numberChar_plain (c : ascii) :
  isNumberChar c = true →
  Ascii.eqb c quoteChar = false ∧ Ascii.eqb c "[" = false ∧ Ascii.eqb c "{" = false
  ∧ Ascii.eqb c "]" = false ∧ Ascii.eqb c "}" = false.
Proof.
  destruct c as [[] [] [] [] [] [] [] []]; simpl; intros H;
    try discriminate H; repeat split; reflexivity.
Qed.

Lemma printNumber_head (n : Z) :
  ∃ c tl, printNumber n = String c tl ∧ isNumberChar c = true.
Proof.
  assert (Hn := numeric_printNumber n). assert (Hi := int_of_printNumber n).
  destruct (printNumber n) as [|c tl]; [discriminate Hi |].
  exists c, tl. simpl in Hn. apply andb_true_iff in Hn. tauto.
Qed.

(** A printed value is not empty and does not begin with a closing
    bracket. *)
Lemma printValue_head (v : value) :
  ∃ c tl, printValue v = String c tl
          ∧ Ascii.eqb c "]" = false ∧ Ascii.eqb c "}" = false.
Proof.
  destruct v as [| [] | n | s | l | l]; try (do 2 eexists; repeat split; reflexivity).
  destruct (printNumber_head n) as (c & tl & Heq & Hc).
  exists c, tl. split; [exact Heq |]. apply numberChar_plain in Hc. tauto.
Qed.

Lemma printValue_length (v : value) : 1 ≤ String.length (printValue v).
Proof. destruct (printValue_head v) as (c & tl & -> & _). simpl. lia. Qed.

Lemma printItems_cons {A : Type} (pr : A → string) (close : string) (x : A) (l : list A) :
  printItems pr close (x :: l) =
  pr x +:+ match l with [] => EmptyString | _ :: _ => "," end +:+ printItems pr close l.
Proof. reflexivity. Qed.

Lemma printItems_length {A : Type} (pr : A → string) (close : string) (l : list A) :
  String.length close ≤ String.length (printItems pr close l).
Proof.
  induction l as [|x l IH]; [reflexivity |].
  rewrite printItems_cons, !length_append. lia.
Qed.

Lemma parseValue_number (fuel : nat) (n : Z) (rest : string) :
  delimited rest → parseValue (S fuel) (printNumber n +:+ rest) = Some (VNum n, rest).
Proof.
  intros Hrest.
  assert (Hspan := spanNumber_token (printNumber n) rest (numeric_printNumber n) Hrest).
  assert (Hint := int_of_printNumber n).
  destruct (printNumber_head n) as (c & tl & Heq & Hc). rewrite Heq in *.
  destruct (numberChar_plain c Hc) as (Hq & Ha & Ho & _).
  rewrite append_cons in *. cbn [parseValue].
  rewrite Hq, Ha, Ho, Hc, Hspan, Hint, DecimalZ.of_to. reflexivity.
Qed.

Lemma parseValue_string (fuel : nat) (s rest : string) :
  parseValue (S fuel) (printString s +:+ rest) = Some (VStr s, rest).
Proof.
  unfold printString. rewrite append_cons, append_assoc, append_cons.
  cbn [parseValue]. change (Ascii.eqb quoteChar quoteChar) with true. cbv iota.
  change (EmptyString +:+ rest) with rest.
  rewrite parseChars_printChars. reflexivity.
Qed.

Lemma append_empty_l (a : string) : EmptyString +:+ a = a.
Proof. reflexivity. Qed.

Lemma parseValue_array (fuel : nat) (c : ascii) (tl : string) :
  Ascii.eqb c "]" = false →
  parseValue (S fuel) (String "[" (String c tl)) =
  match parseItems fuel (String c tl) with
  | Some (l, after) => Some (VArr l, after)
  | None => None
  end.
Proof. intros Hc. cbn [parseValue]. rewrite Hc. reflexivity. Qed.

Lemma parseValue_object (fuel : nat) (c : ascii) (tl : string) :
  Ascii.eqb c "}" = false →
  parseValue (S fuel) (String "{" (String c tl)) =
  match parseProps fuel (String c tl) with
  | Some (l, after) => Some (VObj l, after)
  | None => None
  end.
Proof. intros Hc. cbn [parseValue]. rewrite Hc. reflexivity. Qed.

Lemma parseItems_step (fuel : nat) (s : string) :
  parseItems (S fuel) s =
  match parseValue fuel s with
  | Some (v, String c rest) =>
      if Ascii.eqb c "," then
        match parseItems fuel rest with
        | Some (l, after) => Some (v :: l, after)
        | None => None
        end
      else if Ascii.eqb c "]" then Some ([v], rest)
      else None
  | _ => None
  end.
Proof. reflexivity. Qed.

Lemma parseProps_step (fuel : nat) (k rest : string) :
  parseProps (S fuel) (printString k +:+ String ":" rest) =
  match parseValue fuel rest with
  | Some (v, String c rest') =>
      if Ascii.eqb c "," then
        match parseProps fuel rest' with
        | Some (l, after) => Some ((k, v) :: l, after)
        | None => None
        end
      else if Ascii.eqb c "}" then Some ([(k, v)], rest')
      else None
  | _ => None
  end.
Proof.
  unfold printString. rewrite append_cons, append_assoc, append_cons, append_empty_l.
  cbn [parseProps]. change (Ascii.eqb quoteChar quoteChar) with true. cbv iota.
  rewrite parseChars_printChars. reflexivity.
Qed.

Local Abbreviation printProp :=
  (fun '(k, v) => printString k +:+ ":" +:+ printValue v).

(** Reading back a printed value, a printed run of items and a printed run
    of properties, with fuel for the length of the text. *)
Lemma parse_print (fuel : nat) :
  (∀ v rest,
     String.length (printValue v) ≤ fuel → delimited rest →
     parseValue fuel (printValue v +:+ rest) = Some (v, rest))
  ∧ (∀ v l rest,
       String.length (printItems printValue "]" (v :: l)) ≤ fuel →
       parseItems fuel (printItems printValue "]" (v :: l) +:+ rest) = Some (v :: l, rest))
  ∧ (∀ k v l rest,
       String.length (printItems printProp "}" ((k, v) :: l)) ≤ fuel →
       parseProps fuel (printItems printProp "}" ((k, v) :: l) +:+ rest)
       = Some ((k, v) :: l, rest)).
Proof.
  induction fuel as [|fuel (IHv & IHi & IHp)].
  - split; [| split].
    + intros v rest Hlen. pose proof (printValue_length v). lia.
    + intros v l rest Hlen. rewrite printItems_cons, !length_append in Hlen.
      pose proof (printValue_length v). lia.
    + intros k v l rest Hlen. rewrite printItems_cons, !length_append in Hlen.
      simpl in Hlen. lia.
  - split; [| split].
    + intros v rest Hlen Hrest.
      destruct v as [| [] | n | s | l | l]; try reflexivity.
      * apply parseValue_number, Hrest.
      * apply parseValue_string.
      * destruct l as [|v l]; [reflexivity |].
        change (printValue (VArr (v :: l)))
          with ("[" +:+ printItems printValue "]" (v :: l)) in *.
        rewrite length_append in Hlen. change (String.length "[") with 1 in Hlen.
        rewrite append_assoc, append_cons, append_empty_l.
        destruct (printValue_head v) as (c & tl & Hhead & Hc & _).
        assert (Hfirst : ∃ tl', printItems printValue "]" (v :: l) +:+ rest = String c tl').
        { rewrite printItems_cons, Hhead. eexists. reflexivity. }
        destruct Hfirst as (tl' & Hfirst).
        rewrite Hfirst, (parseValue_array fuel c tl' Hc), <- Hfirst, IHi by lia.
        reflexivity.
      * destruct l as [|[k v] l]; [reflexivity |].
        change (printValue (VObj ((k, v) :: l)))
          with ("{" +:+ printItems printProp "}" ((k, v) :: l)) in *.
        rewrite length_append in Hlen. change (String.length "{") with 1 in Hlen.
        rewrite append_assoc, append_cons, append_empty_l.
        assert (Hfirst : ∃ tl', printItems printProp "}" ((k, v) :: l) +:+ rest
                                = String quoteChar tl').
        { rewrite printItems_cons. eexists. reflexivity. }
        destruct Hfirst as (tl' & Hfirst).
        rewrite Hfirst, (parseValue_object fuel quoteChar tl' eq_refl), <- Hfirst,
          IHp by lia.
        reflexivity.
    + intros v l rest Hlen.
      rewrite printItems_cons, !length_append in Hlen.
      pose proof (printItems_length printValue "]" l) as Hclose. simpl in Hclose.
      rewrite parseItems_step, printItems_cons, !append_assoc.
      destruct l as [|v' l]; cbn [String.length] in Hlen.
      * rewrite IHv by first [lia | reflexivity]. reflexivity.
      * rewrite IHv by first [lia | reflexivity].
        rewrite append_cons, append_empty_l.
        change (Ascii.eqb "," ",") with true. cbv iota.
        rewrite IHi by lia. reflexivity.
    + intros k v l rest Hlen.
      rewrite printItems_cons, !length_append in Hlen.
      pose proof (printItems_length printProp "}" l) as Hclose. simpl in Hclose.
      rewrite printItems_cons, !append_assoc, append_cons, append_empty_l.
      rewrite parseProps_step.
      destruct l as [|[k' v'] l]; cbn [String.length] in Hlen.
      * rewrite IHv by first [lia | reflexivity]. reflexivity.
      * rewrite IHv by first [lia | reflexivity].
        rewrite append_cons, append_empty_l.
        change (Ascii.eqb "," ",") with true. cbv iota.
        rewrite IHp by lia. reflexivity.
Qed.

Lemma refParse_refStringify (v : value) : refParse (refStringify v) = Normal v.
Proof.
  unfold refParse, refStringify.
  pose proof (proj1 (parse_print (String.length (printValue v))) v EmptyString
                (le_n _) I) as Hparse.
  rewrite append_empty_r in Hparse. rewrite Hparse. reflexivity.
Qed.

Lemma refCodec_contract : codecContract refStringify refParse.
Proof. split; [intros v _; apply refParse_refStringify | reflexivity]. Qed.

(** ** The theorems at concrete inputs *)

(** The example of the specification: adding "Buy milk" and then toggling
    it. *)
Example buy_milk :
  let added :=
    handleAddTodo refStringify (mkClock 1704103200000 "01/01/2024, 10:00")
      (mkSubmission "Buy milk" "2024-01-01" EmptyString) (freshWorld ∅) in
  let toggled :=
    handleListClick refStringify (mkClock 1704103260000 "01/01/2024, 10:01")
      (mkClick (Some 1704103200000%Z) false true false) added in
  todos (state added) =
    [mkTask 1704103200000 "Buy milk" EmptyString "2024-01-01" false]
  ∧ map action (history (state added)) = ["Added task: " +:+ dquote +:+ "Buy milk" +:+ dquote]
  ∧ todos (state toggled) =
      [mkTask 1704103200000 "Buy milk" EmptyString "2024-01-01" true]
  ∧ map action (history (state toggled)) =
      ["Completed task: " +:+ dquote +:+ "Buy milk" +:+ dquote;
       "Added task: " +:+ dquote +:+ "Buy milk" +:+ dquote]
  ∧ loadState refParse (freshWorld (localStorage toggled)) =
      Normal (Some (mkWorld (mkState (todos (state toggled)) (history (state toggled)) "all")
                            (localStorage toggled) EmptyString [])).
Proof. vm_compute. repeat split. Qed.

Lemma unknown_filter_is_all_witness :
  let st :=
    mkState [mkTask 1 "Buy milk" EmptyString "2024-01-01" true;
             mkTask 2 "Call mum" EmptyString "2024-01-02" false] [] "urgent" in
  currentFilter st ≠ "completed"
  ∧ currentFilter st ≠ "incomplete"
  ∧ filteredTodos st = todos st
  ∧ filteredTodos st = filteredTodos (setCurrentFilter "all" st).
Proof.
  simpl. split; [discriminate |]. split; [discriminate |].
  apply (unknown_filter_is_all
           (mkState [mkTask 1 "Buy milk" EmptyString "2024-01-01" true;
                     mkTask 2 "Call mum" EmptyString "2024-01-02" false] [] "urgent"));
    discriminate.
Defined.

Lemma invalid_submission_rejected_witness :
  let form := mkSubmission "   " "2024-01-01" "nothing to do" in
  let w := freshWorld ∅ in
  let w' := handleAddTodo refStringify (mkClock 5 "01/01/2024, 10:00") form w in
  blank (todoInput form) = true
  ∧ state w' = state w
  ∧ localStorage w' = localStorage w
  ∧ todoList w' = todoList w
  ∧ errorMessage w' = "Task title and date cannot be empty!"
  ∧ errorMessage w' ≠ EmptyString.
Proof.
  cbv zeta. split; [reflexivity |].
  apply (invalid_submission_rejected refStringify (mkClock 5 "01/01/2024, 10:00")
           (mkSubmission "   " "2024-01-01" "nothing to do") (freshWorld ∅)).
  left. reflexivity.
Defined.

Lemma checkStorage_recovers_witness :
  let broken : gmap string string := <["todos" := "[{oops"]> ∅ in
  (∅ : gmap string string) !! "todos" = None
  ∧ checkStorage refParse "todos" ∅ = Normal (VArr [])
  ∧ broken !! "todos" = Some "[{oops"
  ∧ refParse "[{oops" = Throw SyntaxError
  ∧ checkStorage refParse "todos" broken = Normal (VArr []).
Proof.
  cbv zeta.
  split; [reflexivity |].
  split; [apply (checkStorage_recovers refParse "todos" ∅); reflexivity |].
  split; [reflexivity |]. split; [reflexivity |].
  apply (proj2 (proj2 (checkStorage_recovers refParse "todos" (<["todos" := "[{oops"]> ∅)))
           "[{oops" SyntaxError); reflexivity.
Defined.

Lemma valid_submission_adds_witness :
  let clock := mkClock 1704103200000 "01/01/2024, 10:00" in
  let form := mkSubmission " Buy milk " "2024-01-01" EmptyString in
  let w' := handleAddTodo refStringify clock form (freshWorld ∅) in
  blank (todoInput form) = false
  ∧ todoDateInput form ≠ EmptyString
  ∧ todos (state w') = [mkTask 1704103200000 "Buy milk" EmptyString "2024-01-01" false]
  ∧ length (history (state w')) = 1.
Proof.
  cbv zeta. split; [reflexivity |]. split; [discriminate |].
  pose proof (valid_submission_adds refStringify
                (mkClock 1704103200000 "01/01/2024, 10:00")
                (mkSubmission " Buy milk " "2024-01-01" EmptyString) (freshWorld ∅)
                eq_refl ltac:(discriminate)) as H.
  cbv zeta in H. destruct H as (Htodos & _ & _ & _ & Hlen).
  split; [exact Htodos | exact Hlen].
Defined.

(** C3 as stated fails once the log is full: after 30 submissions a further
    valid submission leaves the history at 30 entries. *)
Lemma add_with_full_history_keeps_length :
  let form := mkSubmission "Buy milk" "2024-01-01" EmptyString in
  let earlier :=
    map (fun n => (mkClock (Z.of_nat n) "01/01/2024, 10:00", form)) (seq 1 30) in
  let w := submitAll refStringify earlier (freshWorld ∅) in
  let w' := handleAddTodo refStringify (mkClock 31 "01/01/2024, 10:31") form w in
  blank (todoInput form) = false
  ∧ todoDateInput form ≠ EmptyString
  ∧ length (history (state w)) = 30
  ∧ length (history (state w')) = 30
  ∧ length (history (state w')) ≠ S (length (history (state w))).
Proof.
  cbv zeta. split; [reflexivity |]. split; [discriminate |].
  split; [vm_compute; reflexivity |]. split; [vm_compute; reflexivity |].
  vm_compute. discriminate.
Qed.

Lemma remove_present_task_witness :
  let t := mkTask 2 "Call mum" EmptyString "2024-01-02" false in
  let others :=
    (mkTask 1 "Buy milk" EmptyString "2024-01-01" true,
     mkTask 3 "Water plants" "the ferns too" "2024-01-03" false) in
  let w := mkWorld (mkState [fst others; t; snd others] [] "all") ∅ EmptyString [] in
  let e := mkClick (Some 2%Z) true false false in
  let w' := handleListClick refStringify (mkClock 9 "03/01/2024, 08:00") e w in
  In t (todos (state w))
  ∧ List.NoDup (map id (todos (state w)))
  ∧ todos (state w') = [fst others; snd others]
  ∧ history (state w') =
      [mkEntry ("Removed task: " +:+ dquote +:+ "Call mum" +:+ dquote) "03/01/2024, 08:00"].
Proof.
  cbv zeta.
  assert (Hin : In (mkTask 2 "Call mum" EmptyString "2024-01-02" false)
                   [mkTask 1 "Buy milk" EmptyString "2024-01-01" true;
                    mkTask 2 "Call mum" EmptyString "2024-01-02" false;
                    mkTask 3 "Water plants" "the ferns too" "2024-01-03" false]).
  { right. left. reflexivity. }
  assert (Hnd : List.NoDup [1; 2; 3]%Z).
  { repeat constructor; simpl; intuition discriminate. }
  split; [exact Hin |]. split; [exact Hnd |].
  pose proof (remove_present_task refStringify (mkClock 9 "03/01/2024, 08:00")
                (mkClick (Some 2%Z) true false false)
                (mkWorld
                   (mkState [mkTask 1 "Buy milk" EmptyString "2024-01-01" true;
                             mkTask 2 "Call mum" EmptyString "2024-01-02" false;
                             mkTask 3 "Water plants" "the ferns too" "2024-01-03" false]
                            [] "all") ∅ EmptyString [])
                (mkTask 2 "Call mum" EmptyString "2024-01-02" false)
                eq_refl eq_refl Hin Hnd) as H.
  cbv zeta in H. destruct H as (_ & _ & _ & Hhist).
  split; [reflexivity | exact Hhist].
Defined.

(** C7 as stated fails when two tasks carry the same id, which two
    submissions within one millisecond produce: deleting one of them takes
    out both. *)
Lemma delete_with_shared_id_removes_both :
  let clock := mkClock 1704103200000 "01/01/2024, 10:00" in
  let subs :=
    [(clock, mkSubmission "Buy milk" "2024-01-01" EmptyString);
     (clock, mkSubmission "Call mum" "2024-01-02" EmptyString)] in
  let w := submitAll refStringify subs (freshWorld ∅) in
  let t := mkTask 1704103200000 "Buy milk" EmptyString "2024-01-01" false in
  let w' :=
    handleListClick refStringify (mkClock 1704103260000 "01/01/2024, 10:01")
      (mkClick (Some (id t)) true false false) w in
  In t (todos (state w))
  ∧ length (todos (state w)) = 2
  ∧ length (todos (state w')) = 0
  ∧ length (todos (state w')) ≠ length (todos (state w)) - 1.
Proof.
  cbv zeta. split; [left; reflexivity |].
  split; [reflexivity |]. split; [reflexivity |]. vm_compute. discriminate.
Qed.

(** C5 as stated fails: two submissions that read the same millisecond get
    the same id. *)
Lemma same_millisecond_same_id :
  let clock := mkClock 1704103200000 "01/01/2024, 10:00" in
  let subs :=
    [(clock, mkSubmission "Buy milk" "2024-01-01" EmptyString);
     (clock, mkSubmission "Call mum" "2024-01-02" EmptyString)] in
  let w := submitAll refStringify subs (freshWorld ∅) in
  map id (todos (state w)) = [1704103200000; 1704103200000]%Z
  ∧ ¬ List.NoDup (map id (todos (state w))).
Proof.
  cbv zeta. split; [reflexivity |].
  intros Hnd. vm_compute in Hnd. inversion Hnd as [|? ? Hnotin _]; subst.
  apply Hnotin. left. reflexivity.
Qed.

Lemma delete_missing_id_logs_witness :
  let w := freshWorld ∅ in
  let e := mkClick (Some 7%Z) true false false in
  let w' := handleListClick refStringify (mkClock 9 "03/01/2024, 08:00") e w in
  (∀ t, In t (todos (state w)) → id t ≠ 7%Z)
  ∧ todos (state w') = todos (state w)
  ∧ history (state w') =
      [mkEntry ("Removed task: " +:+ dquote +:+ dquote) "03/01/2024, 08:00"]
  ∧ history (state w') ≠ history (state w)
  ∧ localStorage w' ≠ localStorage w.
Proof.
  cbv zeta.
  assert (Hmissing : ∀ t, In t (todos (state (freshWorld ∅))) → id t ≠ 7%Z).
  { intros t []. }
  pose proof (delete_missing_id_logs refStringify (mkClock 9 "03/01/2024, 08:00")
                (mkClick (Some 7%Z) true false false) (freshWorld ∅) 7%Z
                eq_refl eq_refl Hmissing) as H.
  cbv zeta in H. destruct H as (Htodos & Hhist & Hchanged & Hstored).
  split; [exact Hmissing |]. split; [exact Htodos |]. split; [exact Hhist |].
  split; [apply Hchanged; simpl; lia |].
  intros Heq. rewrite Heq in Hstored. discriminate Hstored.
Defined.

Lemma save_load_roundtrip_witness :
  let w :=
    mkWorld
      (mkState [mkTask 1704103200000 ("Buy " +:+ dquote +:+ "milk" +:+ dquote)
                       EmptyString "2024-01-01" true]
               [mkEntry "Completed task" "01/01/2024, 10:01";
                mkEntry "Added task" "01/01/2024, 10:00"] "completed")
      ∅ EmptyString [] in
  codecContract refStringify refParse
  ∧ loadState refParse (freshWorld (localStorage (saveState refStringify w))) =
    Normal
      (Some (mkWorld (mkState (todos (state w)) (history (state w)) "all")
                     (localStorage (saveState refStringify w)) EmptyString [])).
Proof.
  cbv zeta. split; [exact refCodec_contract |].
  apply (save_load_roundtrip refStringify refParse refCodec_contract).
Defined.

(** ** Further theorems at concrete inputs *)


Lemma toggle_twice_restores_witness :
  let t := mkTask 2 "Call mum" EmptyString "2024-01-02" false in
  let w :=
    mkWorld (mkState [mkTask 1 "Buy milk" EmptyString "2024-01-01" true; t] [] "all")
            ∅ EmptyString [] in
  let e := mkClick (Some 2%Z) false true false in
  let w2 :=
    handleListClick refStringify (mkClock 10 "03/01/2024, 08:01") e
      (handleListClick refStringify (mkClock 9 "03/01/2024, 08:00") e w) in
  List.find (fun x => id x =? 2)%Z (todos (state w)) = Some t
  ∧ todos (state w2) = todos (state w).
Proof.
  cbv zeta. split; [reflexivity |].
  exact (proj1 (toggle_twice_restores refStringify
                  (mkClock 9 "03/01/2024, 08:00") (mkClock 10 "03/01/2024, 08:01")
                  (mkClick (Some 2%Z) false true false)
                  (mkWorld
                     (mkState [mkTask 1 "Buy milk" EmptyString "2024-01-01" true;
                               mkTask 2 "Call mum" EmptyString "2024-01-02" false]
                              [] "all") ∅ EmptyString [])
                  2%Z (mkTask 2 "Call mum" EmptyString "2024-01-02" false)
                  eq_refl eq_refl eq_refl eq_refl)).
Defined.


Lemma clicks_keep_ids_witness :
  let w :=
    mkWorld
      (mkState [mkTask 1 "Buy milk" EmptyString "2024-01-01" true;
                mkTask 2 "Call mum" EmptyString "2024-01-02" false] [] "all")
      ∅ EmptyString [] in
  let w' :=
    handleListClick refStringify (mkClock 9 "03/01/2024, 08:00")
      (mkClick (Some 1%Z) true false false) w in
  List.NoDup (map id (todos (state w)))
  ∧ List.NoDup (map id (todos (state w'))).
Proof.
  cbv zeta.
  assert (Hnd : List.NoDup [1; 2]%Z).
  { repeat constructor; simpl; intuition discriminate. }
  split; [exact Hnd |].
  exact (proj2 (clicks_keep_ids refStringify (mkClock 9 "03/01/2024, 08:00")
                  (mkClick (Some 1%Z) true false false)
                  (mkWorld
                     (mkState [mkTask 1 "Buy milk" EmptyString "2024-01-01" true;
                               mkTask 2 "Call mum" EmptyString "2024-01-02" false]
                              [] "all") ∅ EmptyString [])) Hnd).
Defined.

Lemma error_message_lifecycle_witness :
  let form := mkSubmission "Buy milk" "2024-01-01" EmptyString in
  let w := mkWorld initialState ∅ "Task title and date cannot be empty!" [] in
  blank (todoInput form) = false
  ∧ todoDateInput form ≠ EmptyString
  ∧ errorMessage (handleAddTodo refStringify (mkClock 9 "03/01/2024, 08:00") form w)
    = EmptyString.
Proof.
  cbv zeta. split; [reflexivity |]. split; [discriminate |].
  apply (proj1 (error_message_lifecycle refStringify (mkClock 9 "03/01/2024, 08:00")
                  (mkSubmission "Buy milk" "2024-01-01" EmptyString)
                  (mkClick None false false false) "all"
                  (mkWorld initialState ∅ "Task title and date cannot be empty!" []))).
  - reflexivity.
  - discriminate.
Defined.

Lemma log_keeps_most_recent_witness :
  let entries :=
    [mkEntry "Added task" "01/01/2024, 10:00"; mkEntry "Removed task" "01/01/2024, 10:05"] in
  length (history initialState) ≤ 30
  ∧ history (logAll entries initialState) =
    [mkEntry "Removed task" "01/01/2024, 10:05"; mkEntry "Added task" "01/01/2024, 10:00"].
Proof.
  cbv zeta. split; [simpl; lia |].
  apply (log_keeps_most_recent
           [mkEntry "Added task" "01/01/2024, 10:00";
            mkEntry "Removed task" "01/01/2024, 10:05"] initialState).
  simpl. lia.
Defined.

Lemma submissions_append_in_order_witness :
  let subs :=
    [(mkClock 5 "01/01/2024, 10:00", mkSubmission " Buy milk " "2024-01-01" EmptyString);
     (mkClock 6 "01/01/2024, 10:01", mkSubmission "   " "2024-01-02" EmptyString);
     (mkClock 7 "01/01/2024, 10:02", mkSubmission "Call mum" "2024-01-03" " today ")] in
  let w' := submitAll refStringify subs (freshWorld ∅) in
  length (history (state (freshWorld ∅))) ≤ 30
  ∧ todos (state w') =
      [mkTask 5 "Buy milk" EmptyString "2024-01-01" false;
       mkTask 7 "Call mum" "today" "2024-01-03" false]
  ∧ map timestamp (history (state w')) = ["01/01/2024, 10:02"; "01/01/2024, 10:00"].
Proof.
  cbv zeta.
  assert (Hle : length (history (state (freshWorld ∅))) ≤ 30) by (simpl; lia).
  split; [exact Hle |].
  pose proof (submissions_append_in_order refStringify
                [(mkClock 5 "01/01/2024, 10:00",
                  mkSubmission " Buy milk " "2024-01-01" EmptyString);
                 (mkClock 6 "01/01/2024, 10:01",
                  mkSubmission "   " "2024-01-02" EmptyString);
                 (mkClock 7 "01/01/2024, 10:02",
                  mkSubmission "Call mum" "2024-01-03" " today ")]
                (freshWorld ∅)) as H.
  cbv zeta in H. destruct H as [Htodos Hhist].
  split; [exact Htodos |]. rewrite (Hhist Hle). reflexivity.
Defined.

Lemma add_then_delete_restores_witness :
  let form := mkSubmission "Buy milk" "2024-01-01" EmptyString in
  let w :=
    mkWorld (mkState [mkTask 1 "Call mum" EmptyString "2024-01-02" false] [] "all")
            ∅ EmptyString [] in
  let w2 :=
    handleListClick refStringify (mkClock 6 "01/01/2024, 10:01")
      (mkClick (Some 5%Z) true false false)
      (handleAddTodo refStringify (mkClock 5 "01/01/2024, 10:00") form w) in
  blank (todoInput form) = false
  ∧ todoDateInput form ≠ EmptyString
  ∧ (∀ x, In x (todos (state w)) → id x ≠ 5%Z)
  ∧ todos (state w2) = todos (state w).
Proof.
  cbv zeta.
  assert (Hfresh :
    ∀ x, In x [mkTask 1 "Call mum" EmptyString "2024-01-02" false] → id x ≠ 5%Z).
  { intros x [<- | []]. discriminate. }
  split; [reflexivity |]. split; [discriminate |]. split; [exact Hfresh |].
  exact (proj1 (add_then_delete_restores refStringify
                  (mkClock 5 "01/01/2024, 10:00") (mkClock 6 "01/01/2024, 10:01")
                  (mkSubmission "Buy milk" "2024-01-01" EmptyString)
                  (mkClick (Some 5%Z) true false false)
                  (mkWorld
                     (mkState [mkTask 1 "Call mum" EmptyString "2024-01-02" false] [] "all")
                     ∅ EmptyString [])
                  eq_refl ltac:(discriminate) Hfresh eq_refl eq_refl)).
Defined.

Lemma checkStorage_present_witness :
  let blanked : gmap string string := <["todos" := EmptyString]> ∅ in
  let stored : gmap string string := <["todos" := "[]"]> ∅ in
  blanked !! "todos" = Some EmptyString
  ∧ checkStorage refParse "todos" blanked = Normal (VArr [])
  ∧ stored !! "todos" = Some "[]"
  ∧ refParse "[]" = Normal (VArr [])
  ∧ checkStorage refParse "todos" stored = Normal (VArr []).
Proof.
  cbv zeta.
  assert (Hblanked :
    (<["todos" := EmptyString]> ∅ : gmap string string) !! "todos" = Some EmptyString).
  { apply lookup_insert_eq. }
  assert (Hstored : (<["todos" := "[]"]> ∅ : gmap string string) !! "todos" = Some "[]").
  { apply lookup_insert_eq. }
  split; [exact Hblanked |].
  split; [exact (proj1 (checkStorage_present refParse "todos" _ _ Hblanked) eq_refl) |].
  split; [exact Hstored |]. split; [reflexivity |].
  apply (proj2 (checkStorage_present refParse "todos" _ _ Hstored) (VArr [])).
  - discriminate.
  - reflexivity.
Defined.

Lemma content_loaded_per_key_witness :
  let t := mkTask 5 "Buy milk" EmptyString "2024-01-01" true in
  let storage : gmap string string := <["todos" := refStringify (todosValue [t])]> ∅ in
  let st := mkState [] [] "completed" in
  codecContract refStringify refParse
  ∧ storage !! "todos" = Some (refStringify (todosValue [t]))
  ∧ storage !! "history" = None
  ∧ onContentLoaded refParse (mkWorld st storage EmptyString []) =
    Normal (Some (mkWorld (mkState [t] [] "completed") storage EmptyString [t])).
Proof.
  cbv zeta. split; [exact refCodec_contract |].
  split; [reflexivity |]. split; [reflexivity |].
  apply (content_loaded_per_key refStringify refParse refCodec_contract
           (mkState [] [] "completed")
           (<["todos" :=
                refStringify (todosValue [mkTask 5 "Buy milk" EmptyString "2024-01-01" true])]> ∅)
           EmptyString []
           (Some [mkTask 5 "Buy milk" EmptyString "2024-01-01" true]) None);
    reflexivity.
Defined.


(** C2 as stated fails on a stored log of 31 entries: [loadState] assigns
    it uncut, and each later submission puts one entry in and takes one
    out. *)
Lemma stored_long_log_stays_long :
  let stored := repeat (mkEntry "Added task" "01/01/2024, 10:00") 31 in
  let storage : gmap string string :=
    <["history" := refStringify (historyValue stored)]> ∅ in
  let loaded := mkWorld (mkState [] stored "all") storage EmptyString [] in
  let added :=
    handleAddTodo refStringify (mkClock 1704189600000 "02/01/2024, 10:00")
      (mkSubmission "Buy milk" "2024-01-02" EmptyString) loaded in
  onContentLoaded refParse (freshWorld storage) = Normal (Some loaded)
  ∧ length (history (state loaded)) = 31
  ∧ length (history (state added)) = 31
  ∧ ¬ length (history (state added)) ≤ 30.
Proof.
  cbv zeta. split; [vm_compute; reflexivity |]. split; [reflexivity |].
  split; [vm_compute; reflexivity |]. vm_compute. lia.
Qed.

Lemma history_cap_kept_witness :
  let ev :=
    Submit (mkClock 1704103200000 "01/01/2024, 10:00")
           (mkSubmission "Buy milk" "2024-01-01" EmptyString) in
  let full := mkState [] (repeat (mkEntry "Added task" "01/01/2024, 10:00") 30) "all" in
  let w := mkWorld full ∅ EmptyString [] in
  let storage : gmap string string :=
    <["history" := refStringify (historyValue (history full))]> ∅ in
  codecContract refStringify refParse
  ∧ length (history (state w)) ≤ 30
  ∧ length (history (state (dispatch refStringify ev w))) ≤ 30
  ∧ length (history full) = 30
  ∧ history (logHistory "Removed task" "02/01/2024, 09:00" full) =
      mkEntry "Removed task" "02/01/2024, 09:00" :: removelast (history full)
  ∧ storage !! "todos" = None
  ∧ storage !! "history" = Some (refStringify (historyValue (history full)))
  ∧ ∃ w', onContentLoaded refParse (freshWorld storage) = Normal (Some w')
          ∧ history (state w') = history full.
Proof.
  cbv zeta.
  destruct (history_cap_kept refStringify refParse refCodec_contract)
    as (Hkeep & _ & Hfull & Hload).
  assert (Hle :
    length (history (state
      (mkWorld (mkState [] (repeat (mkEntry "Added task" "01/01/2024, 10:00") 30) "all")
               ∅ EmptyString []))) ≤ 30).
  { simpl. lia. }
  assert (Hkey :
    (<["history" :=
         refStringify
           (historyValue (repeat (mkEntry "Added task" "01/01/2024, 10:00") 30))]> ∅
       : gmap string string) !! "history"
    = Some (refStringify
              (historyValue (repeat (mkEntry "Added task" "01/01/2024, 10:00") 30)))).
  { apply lookup_insert_eq. }
  assert (Hnone :
    (<["history" :=
         refStringify
           (historyValue (repeat (mkEntry "Added task" "01/01/2024, 10:00") 30))]> ∅
       : gmap string string) !! "todos" = None).
  { rewrite lookup_insert_ne by discriminate. apply lookup_empty. }
  split; [exact refCodec_contract |]. split; [exact Hle |].
  split; [exact (Hkeep _ _ Hle) |]. split; [reflexivity |].
  split;
    [exact (proj1 (Hfull "Removed task" "02/01/2024, 09:00"
                     (mkState [] (repeat (mkEntry "Added task" "01/01/2024, 10:00") 30)
                              "all") eq_refl)) |].
  split; [exact Hnone |]. split; [exact Hkey |].
  exact (Hload initialState _ EmptyString [] None _ Hnone Hkey).
Defined.

Lemma ids_follow_the_clock_witness :
  let subs :=
    [(mkClock 1704103200000 "01/01/2024, 10:00",
      mkSubmission "Buy milk" "2024-01-01" EmptyString);
     (mkClock 1704103200000 "01/01/2024, 10:00",
      mkSubmission "Call mum" "2024-01-02" EmptyString)] in
  let readings := [1704103200000; 1704103200000]%Z in
  ¬ List.NoDup readings
  ∧ map id (todos (state (submitAll refStringify subs (freshWorld ∅)))) = readings
  ∧ ¬ List.NoDup (map id (todos (state (submitAll refStringify subs (freshWorld ∅))))).
Proof.
  cbv zeta.
  assert (Hrep : ¬ List.NoDup [1704103200000; 1704103200000]%Z).
  { intros Hnd. inversion Hnd as [|? ? Hnotin _]; subst. apply Hnotin. left. reflexivity. }
  pose proof (ids_follow_the_clock refStringify
                [(mkClock 1704103200000 "01/01/2024, 10:00",
                  mkSubmission "Buy milk" "2024-01-01" EmptyString);
                 (mkClock 1704103200000 "01/01/2024, 10:00",
                  mkSubmission "Call mum" "2024-01-02" EmptyString)]
                (freshWorld ∅)) as H.
  cbv zeta in H. destruct H as (_ & Hids & _ & Hnot & _).
  split; [exact Hrep |]. split; [exact Hids | exact (Hnot Hrep)].
Defined.

Lemma events_write_two_keys_witness :
  let fits (storage : gmap string string) (key value : string) :=
    negb (String.eqb key "history") in
  let w := freshWorld (<["theme" := "dark"]> ∅) in
  let ev :=
    Submit (mkClock 9 "03/01/2024, 08:00")
           (mkSubmission "Buy milk" "2024-01-01" EmptyString) in
  let o := dispatchQuota refStringify fits ev w in
  "theme" ≠ "todos"
  ∧ "theme" ≠ "history"
  ∧ o = Aborted (worldOf o)
  ∧ localStorage (worldOf o) !! "theme" = localStorage w !! "theme"
  ∧ todoList (worldOf o) = todoList w
  ∧ localStorage (worldOf o) !! "history" = localStorage w !! "history"
  ∧ state (worldOf o) = state (dispatch refStringify ev w).
Proof.
  cbv zeta.
  pose proof (events_write_two_keys refStringify
                (fun _ key _ => negb (String.eqb key "history"))
                (Submit (mkClock 9 "03/01/2024, 08:00")
                        (mkSubmission "Buy milk" "2024-01-01" EmptyString))
                (freshWorld (<["theme" := "dark"]> ∅))) as H.
  cbv zeta in H. destruct H as (Hstate & Hkeys & _ & Haborted).
  assert (Ha :
    dispatchQuota refStringify (fun _ key _ => negb (String.eqb key "history"))
      (Submit (mkClock 9 "03/01/2024, 08:00")
              (mkSubmission "Buy milk" "2024-01-01" EmptyString))
      (freshWorld (<["theme" := "dark"]> ∅))
    = Aborted
        (worldOf
           (dispatchQuota refStringify (fun _ key _ => negb (String.eqb key "history"))
              (Submit (mkClock 9 "03/01/2024, 08:00")
                      (mkSubmission "Buy milk" "2024-01-01" EmptyString))
              (freshWorld (<["theme" := "dark"]> ∅))))).
  { reflexivity. }
  split; [discriminate |]. split; [discriminate |]. split; [exact Ha |].
  split; [apply Hkeys; discriminate |].
  destruct (Haborted _ Ha) as [Hlist Hhist].
  split; [exact Hlist |]. split; [exact Hhist | exact Hstate].
Defined.

Lemma list_in_step_when_completed_witness :
  let ev :=
    Submit (mkClock 9 "03/01/2024, 08:00")
           (mkSubmission "Buy milk" "2024-01-01" EmptyString) in
  let w := freshWorld ∅ in
  let done := dispatch refStringify ev w in
  dispatchQuota refStringify (fun _ _ _ => true) ev w = Completed done
  ∧ todoList w = filteredTodos (state w)
  ∧ todoList done = filteredTodos (state done)
  ∧ todoList done = [mkTask 9 "Buy milk" EmptyString "2024-01-01" false].
Proof.
  cbv zeta.
  assert (Hc :
    dispatchQuota refStringify (fun _ _ _ => true)
      (Submit (mkClock 9 "03/01/2024, 08:00")
              (mkSubmission "Buy milk" "2024-01-01" EmptyString)) (freshWorld ∅)
    = Completed
        (dispatch refStringify
           (Submit (mkClock 9 "03/01/2024, 08:00")
                   (mkSubmission "Buy milk" "2024-01-01" EmptyString)) (freshWorld ∅))).
  { reflexivity. }
  split; [exact Hc |]. split; [reflexivity |]. split; [| reflexivity].
  exact (proj1 (list_in_step_when_completed refStringify refParse (fun _ _ _ => true)
                  (Submit (mkClock 9 "03/01/2024, 08:00")
                          (mkSubmission "Buy milk" "2024-01-01" EmptyString))
                  (freshWorld ∅)) _ Hc eq_refl).
Defined.

Lemma completed_changes_survive_reload_witness :
  let ev :=
    Submit (mkClock 5 "01/01/2024, 10:00")
           (mkSubmission "Buy milk" "2024-01-01" EmptyString) in
  let w := handleFilterChange "completed" (freshWorld ∅) in
  let w' := dispatch refStringify ev w in
  codecContract refStringify refParse
  ∧ dispatchQuota refStringify (fun _ _ _ => true) ev w = Completed w'
  ∧ todos (state w') ≠ todos (state w)
  ∧ onContentLoaded refParse (freshWorld (localStorage w')) =
    Normal
      (Some (mkWorld (mkState (todos (state w')) (history (state w')) "all")
                     (localStorage w') EmptyString (todos (state w')))).
Proof.
  cbv zeta. split; [exact refCodec_contract |].
  assert (Hc :
    dispatchQuota refStringify (fun _ _ _ => true)
      (Submit (mkClock 5 "01/01/2024, 10:00")
              (mkSubmission "Buy milk" "2024-01-01" EmptyString))
      (handleFilterChange "completed" (freshWorld ∅))
    = Completed
        (dispatch refStringify
           (Submit (mkClock 5 "01/01/2024, 10:00")
                   (mkSubmission "Buy milk" "2024-01-01" EmptyString))
           (handleFilterChange "completed" (freshWorld ∅)))).
  { reflexivity. }
  assert (Hchanged :
    todos (state
             (dispatch refStringify
                (Submit (mkClock 5 "01/01/2024, 10:00")
                        (mkSubmission "Buy milk" "2024-01-01" EmptyString))
                (handleFilterChange "completed" (freshWorld ∅))))
    ≠ todos (state (handleFilterChange "completed" (freshWorld ∅)))).
  { intros Heq. vm_compute in Heq. discriminate Heq. }
  split; [exact Hc |]. split; [exact Hchanged |].
  apply (completed_changes_survive_reload refStringify refParse (fun _ _ _ => true)
           refCodec_contract _ _ _ Hc).
  left. exact Hchanged.
Defined.

Lemma events_keep_tasks_tidy_witness :
  let w :=
    mkWorld (mkState [mkTask 1 "Call mum" "today" "2024-01-02" false] [] "all")
            ∅ EmptyString [] in
  let ev :=
    Submit (mkClock 5 "01/01/2024, 10:00")
           (mkSubmission "  Buy milk " "2024-01-01" " two litres  ") in
  Forall (fun t => text t ≠ EmptyString ∧ date t ≠ EmptyString
                   ∧ trim (text t) = text t ∧ trim (description t) = description t)
         (todos (state w))
  ∧ Forall (fun t => text t ≠ EmptyString ∧ date t ≠ EmptyString
                     ∧ trim (text t) = text t ∧ trim (description t) = description t)
           (todos (state (dispatch refStringify ev w)))
  ∧ todos (state (dispatch refStringify ev w)) =
      [mkTask 1 "Call mum" "today" "2024-01-02" false;
       mkTask 5 "Buy milk" "two litres" "2024-01-01" false].
Proof.
  cbv zeta.
  assert (Hw :
    Forall (fun t => text t ≠ EmptyString ∧ date t ≠ EmptyString
                     ∧ trim (text t) = text t ∧ trim (description t) = description t)
           [mkTask 1 "Call mum" "today" "2024-01-02" false]).
  { constructor; [| constructor]. simpl. repeat split; discriminate. }
  split; [exact Hw |]. split; [| reflexivity].
  exact (proj1 (events_keep_tasks_tidy refStringify (fun _ _ _ => true)
                  (Submit (mkClock 5 "01/01/2024, 10:00")
                          (mkSubmission "  Buy milk " "2024-01-01" " two litres  "))
                  (mkWorld
                     (mkState [mkTask 1 "Call mum" "today" "2024-01-02" false] [] "all")
                     ∅ EmptyString []) Hw)).
Defined.

Lemma history_lines_witness :
  let st :=
    mkState []
      [mkEntry "Completed task" "01/01/2024, 10:01";
       mkEntry "Added task" "01/01/2024, 10:00"] "all" in
  length (history st) ≤ 30
  ∧ 1 ≤ length (renderHistory st) ≤ 30
  ∧ renderHistory st =
      ["[01/01/2024, 10:01] - Completed task"; "[01/01/2024, 10:00] - Added task"].
Proof.
  cbv zeta.
  assert (Hle :
    length (history (mkState []
                       [mkEntry "Completed task" "01/01/2024, 10:01";
                        mkEntry "Added task" "01/01/2024, 10:00"] "all")) ≤ 30).
  { simpl. lia. }
  split; [exact Hle |]. split; [| reflexivity].
  exact (proj2 (proj2 (proj2 (history_lines
                                (mkState []
                                   [mkEntry "Completed task" "01/01/2024, 10:01";
                                    mkEntry "Added task" "01/01/2024, 10:00"] "all"))))
               Hle).
Defined.
